(** * Panfletos RSS feed generator: a shallow embedding and its properties

    The development follows [panfletos_rss_generator.py]: the text helpers
    ([parse_pt_date], [parse_duration], [format_rfc822],
    [format_itunes_duration], [xml_escape]), the episode extractor
    ([scrape_episodes_from_html]), the renderer ([generate_rss]), the
    hardcoded fallback list, the audio resolution ([extract_audio_url]), the
    live fetch ([fetch_episodes_online]) and the entry point ([main]).

    Conventions of the embedding.
    - A Python [str] is a sequence of code points.  A [string] of this file
      holds one code point per [ascii], so the development covers the code
      points below 256 (Latin-1); the character classes below are the Python
      ones restricted to that range.
    - A Python [int] is a [Z].  The interpreter's configurable limit on the
      length of decimal text accepted by [int()] is not part of the model.
    - An exception is a value: fallible functions return a [result].
    - [datetime.now()] reads the clock; the functions that call it take the
      reading as their first argument [now].
    - What lies outside the program (the installed libraries, the network,
      the page reader, the stream extractor, the file system) is a [world];
      a run gives an outcome and the lines printed and files written.  The
      command line is taken as parsed. *)

From Stdlib Require Import ZArith List Bool Ascii String Lia.
From Stdlib Require Decimal DecimalString DecimalPos DecimalZ.
Import ListNotations.

Open Scope string_scope.
Open Scope Z_scope.

(** ** Exceptions as values *)

Inductive exn : Set :=
| ValueError
| OverflowError.

Inductive result (A : Type) : Type :=
| Ok (a : A)
| Raise (e : exn).

Arguments Ok {A} a.
Arguments Raise {A} e.

Definition bind {A B : Type} (r : result A) (k : A -> result B) : result B :=
  match r with
  | Ok a => k a
  | Raise e => Raise e
  end.

Notation "x <- e ;; k" := (bind e (fun x => k))
  (at level 61, e at next level, right associativity).

(** ** Python strings *)

Module Py.

(** The double quote, which a string literal of this file cannot hold. *)
Definition dq : string := String (ascii_of_nat 34) "".

(** [chr n] is the one-character string of code point [n]. *)
Definition chr (n : nat) : string := String (ascii_of_nat n) "".

Definition code (c : ascii) : N := N_of_ascii c.

Definition in_range (lo hi : N) (c : ascii) : bool :=
  ((lo <=? code c) && (code c <=? hi))%N.

(** [str.isspace] on one code point: TAB..CR, FS..US, SPACE, NEL, NBSP. *)
Definition is_space (c : ascii) : bool :=
  in_range 9 13 c || in_range 28 32 c
  || (code c =? 133)%N || (code c =? 160)%N.

(** Decimal digits (Unicode category Nd): below 256 these are [0-9]. *)
Definition is_digit (c : ascii) : bool := in_range 48 57 c.

Definition digit_val (c : ascii) : Z := Z.of_N (code c) - 48.

(** [str.lower] on one code point: A-Z, and the Latin-1 capitals
    U+00C0..U+00DE except the multiplication sign U+00D7. *)
Definition lower_char (c : ascii) : ascii :=
  if in_range 65 90 c
     || (in_range 192 222 c && negb (code c =? 215)%N)
  then ascii_of_N (code c + 32)
  else c.

Fixpoint lower (s : string) : string :=
  match s with
  | "" => ""
  | String c s' => String (lower_char c) (lower s')
  end.

Fixpoint lstrip (s : string) : string :=
  match s with
  | "" => ""
  | String c s' => if is_space c then lstrip s' else s
  end.

Fixpoint rstrip (s : string) : string :=
  match s with
  | "" => ""
  | String c s' =>
      match rstrip s' with
      | "" => if is_space c then "" else String c ""
      | r => String c r
      end
  end.

(** [str.strip()] *)
Definition strip (s : string) : string := rstrip (lstrip s).

(** The number written by the digits [s] in base [base], after [acc]. *)
Fixpoint number (base : Z) (val : ascii -> Z) (acc : Z) (s : string) : Z :=
  match s with
  | "" => acc
  | String c s' => number base val (base * acc + val c) s'
  end.

(** Every character of [s] is in the class. *)
Fixpoint all (p : ascii -> bool) (s : string) : bool :=
  match s with
  | "" => true
  | String c s' => p c && all p s'
  end.

(** The longest prefix in the class, and what follows it. *)
Fixpoint span (p : ascii -> bool) (s : string) : string * string :=
  match s with
  | String c s' =>
      if p c then let (a, b) := span p s' in (String c a, b) else ("", s)
  | "" => ("", "")
  end.

Fixpoint drop (n : nat) (s : string) : string :=
  match n, s with
  | O, _ => s
  | S n', String _ s' => drop n' s'
  | S _, "" => ""
  end.

(** [str.replace(old, new)] for a non-empty [old]: scan left to right,
    replace each occurrence and resume after it ([skip] counts the
    characters of the occurrence still to pass over). *)
Fixpoint replace_from (old new s : string) (skip : nat) : string :=
  match s with
  | "" => ""
  | String c s' =>
      match skip with
      | S k => replace_from old new s' k
      | O =>
          if prefix old s
          then new ++ replace_from old new s' (String.length old - 1)
          else String c (replace_from old new s' 0)
      end
  end.

(** With an empty [old], Python inserts [new] before every character and
    at the end. *)
Fixpoint interleave (new s : string) : string :=
  match s with
  | "" => new
  | String c s' => new ++ String c (interleave new s')
  end.

Definition replace (old new s : string) : string :=
  match old with
  | "" => interleave new s
  | _ => replace_from old new s 0
  end.

(** [str.split()]: maximal runs of non-whitespace, in order.  [word] is the
    run under construction. *)
Definition flush (word : string) : list string :=
  match word with
  | "" => []
  | _ => [word]
  end.

Fixpoint split_from (word s : string) : list string :=
  match s with
  | "" => flush word
  | String c s' =>
      if is_space c then (flush word ++ split_from "" s')%list
      else split_from (word ++ String c "") s'
  end.

Definition split (s : string) : list string := split_from "" s.

(** [sep.join(lines)] *)
Definition join (sep : string) (lines : list string) : string :=
  String.concat sep lines.

(** The digits of an [int()] literal: decimal digits, single underscores
    allowed between two digits. *)
Fixpoint int_digits (acc : Z) (after_digit : bool) (s : string) : option Z :=
  match s with
  | "" => if after_digit then Some acc else None
  | String c r =>
      if is_digit c then int_digits (10 * acc + digit_val c) true r
      else if (code c =? 95)%N && after_digit then
        match r with
        | "" => None
        | _ => int_digits acc false r
        end
      else None
  end.

(** [int(s)] in base ten: surrounding whitespace, an optional sign, the
    digits; anything else is a [ValueError]. *)
Definition int (s : string) : result Z :=
  let t := strip s in
  let body :=
    match t with
    | String c r =>
        if (c =? "+")%char then int_digits 0 false r
        else if (c =? "-")%char then option_map Z.opp (int_digits 0 false r)
        else int_digits 0 false t
    | "" => None
    end in
  match body with
  | Some n => Ok n
  | None => Raise ValueError
  end.

(** [str(n)] *)
Definition str (n : Z) : string := DecimalString.NilZero.string_of_int (Z.to_int n).

(** The format spec [02d]: sign-aware zero padding to width two. *)
Definition fmt_02d (n : Z) : string :=
  if (0 <=? n) && (n <? 10) then "0" ++ str n else str n.

(** [l.append(x)] *)
Definition append {A : Type} (l : list A) (x : A) : list A := (l ++ [x])%list.

(** [d.get(key, default)] on a dict literal with string keys. *)
Fixpoint dict_get {A : Type} (d : list (string * A)) (key : string)
  (default : A) : A :=
  match d with
  | [] => default
  | (k, v) :: d' => if (k =? key)%string then v else dict_get d' key default
  end.

End Py.

(** ** Regular expressions

    The two patterns of the program are sequences of literals and greedy
    repetitions of a character class.  The matchers below are written in
    continuation style and backtrack the way [re] does: a repetition first
    takes as many characters as it can and gives them back one at a time
    while the rest of the pattern fails. *)

Module Re.

Section Matchers.
Context {R : Type}.

(** [cls*]; the continuation receives the text matched and the rest. *)
Fixpoint star (cls : ascii -> bool) (k : string -> string -> option R)
  (s : string) : option R :=
  match s with
  | String c s' =>
      if cls c then
        match star cls (fun m rest => k (String c m) rest) s' with
        | Some r => Some r
        | None => k "" s
        end
      else k "" s
  | "" => k "" s
  end.

(** [cls+] *)
Definition plus (cls : ascii -> bool) (k : string -> string -> option R)
  (s : string) : option R :=
  match s with
  | String c s' =>
      if cls c then star cls (fun m rest => k (String c m) rest) s'
      else None
  | "" => None
  end.

(** A literal. *)
Definition lit (l : string) (k : string -> option R) (s : string)
  : option R :=
  if prefix l s then k (Py.drop (String.length l) s) else None.

(** [pattern.search]: the match at the leftmost position that has one. *)
Fixpoint search (pat : string -> option R) (s : string) : option R :=
  match pat s with
  | Some r => Some r
  | None =>
      match s with
      | "" => None
      | String _ s' => search pat s'
      end
  end.
End Matchers.

End Re.

(** ** Timestamps

    A [datetime] object: the fields of the naive timestamp.  Objects are
    only ever built by the checked constructor [datetime_new] or read from
    the clock, so they satisfy [valid_datetime]. *)

Record datetime : Set := mkdt {
  year : Z;
  month : Z;
  day : Z;
  hour : Z;
  minute : Z;
  second : Z;
  microsecond : Z
}.

Definition is_leap (y : Z) : bool :=
  (y mod 4 =? 0) && (negb (y mod 100 =? 0) || (y mod 400 =? 0)).

Definition DAYS_IN_MONTH : list Z :=
  [31; 28; 31; 30; 31; 30; 31; 31; 30; 31; 30; 31].

Definition days_in_month (y m : Z) : Z :=
  if (m =? 2) && is_leap y then 29
  else nth (Z.to_nat (m - 1)) DAYS_IN_MONTH 0.

Definition days_before_year (y : Z) : Z :=
  let y := y - 1 in
  y * 365 + y / 4 - y / 100 + y / 400.

Definition days_before_month (y m : Z) : Z :=
  fold_right Z.add 0 (firstn (Z.to_nat (m - 1)) DAYS_IN_MONTH)
  + (if (2 <? m) && is_leap y then 1 else 0).

Definition toordinal (dt : datetime) : Z :=
  days_before_year (year dt) + days_before_month (year dt) (month dt)
  + day dt.

(** [dt.weekday()]: Monday is 0. *)
Definition weekday (dt : datetime) : Z := (toordinal dt + 6) mod 7.

Definition between (lo hi x : Z) : bool := (lo <=? x) && (x <=? hi).

Definition valid_date (y m d : Z) : bool :=
  between 1 9999 y && between 1 12 m && between 1 (days_in_month y m) d.

Definition valid_time (hh mm ss us : Z) : bool :=
  between 0 23 hh && between 0 59 mm && between 0 59 ss
  && between 0 999999 us.

Definition valid_datetime (dt : datetime) : bool :=
  valid_date (year dt) (month dt) (day dt)
  && valid_time (hour dt) (minute dt) (second dt) (microsecond dt).

(** The constructor reads its arguments as C [int]s. *)
Definition fits_c_int (x : Z) : bool := between (- 2147483648) 2147483647 x.

(** [datetime(year, month, day, hour, minute, second)] *)
Definition datetime_new (y m d hh mm ss : Z) : result datetime :=
  if negb (forallb fits_c_int [y; m; d; hh; mm; ss]) then Raise OverflowError
  else if valid_date y m d && valid_time hh mm ss 0
       then Ok (mkdt y m d hh mm ss 0)
       else Raise ValueError.

(** ** Configuration *)

Definition PROGRAM_ID := "p8339".
Definition PROGRAM_SLUG := "panfletos".
Definition PROGRAM_TITLE := "Panfletos".
Definition PROGRAM_AUTHOR := "Pedro Tadeu".

(** The accented letters of the literals, by code point. *)
Definition a_acute := Py.chr 225.
Definition a_tilde := Py.chr 227.
Definition c_cedil := Py.chr 231.
Definition e_acute := Py.chr 233.
Definition e_circ := Py.chr 234.
Definition i_acute := Py.chr 237.
Definition o_acute := Py.chr 243.
Definition o_tilde := Py.chr 245.
Definition u_acute := Py.chr 250.
Definition copyright_sign := Py.chr 169.

Definition PROGRAM_DESCRIPTION : string :=
  "As palavras-chave deste projeto s" ++ a_tilde ++ "o estas: m" ++ u_acute
  ++ "sica-pol" ++ i_acute ++ "tica, can" ++ c_cedil ++ o_tilde
  ++ "es-poder, "
  ++ "criatividade-resist" ++ e_circ ++ "ncia, cultura-opress" ++ a_tilde
  ++ "o, talento-censura, poesia-liberdade, "
  ++ "arte-causas. Panfletos foi um programa de Ruben de Carvalho na antiga Telefonia "
  ++ "de Lisboa. Recriado agora por Pedro Tadeu, na Antena 1, trata da rela"
  ++ c_cedil ++ a_tilde ++ "o " ++ i_acute ++ "ntima, "
  ++ "ao longo dos tempos, da arte musical com a vida e a luta dos povos. "
  ++ "Diariamente: uma can" ++ c_cedil ++ a_tilde ++ "o na Hist" ++ o_acute
  ++ "ria.".

Definition PROGRAM_IMAGE :=
  "https://cdn-images.rtp.pt/EPG/radio/imagens/7290_10886_10223.jpg".
Definition PROGRAM_URL :=
  "https://www.rtp.pt/play/" ++ PROGRAM_ID ++ "/" ++ PROGRAM_SLUG.
Definition PROGRAM_CATEGORY := "Music".
Definition PROGRAM_LANGUAGE := "pt".
Definition CHANNEL := "Antena1".

Definition BASE_URL := "https://www.rtp.pt".
Definition FEED_SELF_URL :=
  "https://javiercubre.github.io/panfletos-rss/panfletos.xml".

Definition PT_MONTHS : list (string * Z) :=
  [("jan", 1); ("fev", 2); ("mar", 3); ("abr", 4); ("mai", 5); ("jun", 6);
   ("jul", 7); ("ago", 8); ("set", 9); ("out", 10); ("nov", 11); ("dez", 12)].

(** ** Text helpers *)

(** Truth value of a [str] in a condition. *)
Definition truthy (s : string) : bool := negb (s =? "")%string.

Definition parse_pt_date (now : datetime) (date_str : string)
  : result datetime :=
  let date_str := Py.strip (Py.replace "." "" (Py.strip date_str)) in
  let parts := Py.split date_str in
  match parts with
  | [p0; p1; p2] =>
      day <- Py.int p0 ;;
      let month := Py.dict_get PT_MONTHS (Py.lower p1) 1 in
      year <- Py.int p2 ;;
      datetime_new year month day 12 0 0
  | _ => Ok now
  end.

(** The pattern [(\d+)\s*min]; the result is group 1. *)
Definition duration_re (s : string) : option string :=
  Re.plus Py.is_digit
    (fun g1 rest =>
       Re.star Py.is_space
         (fun _ rest' => Re.lit "min" (fun _ => Some g1) rest')
         rest)
    s.

Definition parse_duration (dur_str : string) : result Z :=
  let dur_str := Py.lower (Py.strip dur_str) in
  match Re.search duration_re dur_str with
  | Some g1 => n <- Py.int g1 ;; Ok (n * 60)
  | None => Ok 0
  end.

(** The two list lookups are in range for every [datetime] object (lemma
    [format_rfc822_lookups]), so the default of [nth] is never used. *)
Definition format_rfc822 (dt : datetime) : string :=
  let days := ["Mon"; "Tue"; "Wed"; "Thu"; "Fri"; "Sat"; "Sun"] in
  let months := ["Jan"; "Feb"; "Mar"; "Apr"; "May"; "Jun";
                 "Jul"; "Aug"; "Sep"; "Oct"; "Nov"; "Dec"] in
  nth (Z.to_nat (weekday dt)) days "" ++ ", " ++ Py.fmt_02d (day dt) ++ " "
  ++ nth (Z.to_nat (month dt - 1)) months "" ++ " "
  ++ Py.str (year dt) ++ " " ++ Py.fmt_02d (hour dt) ++ ":"
  ++ Py.fmt_02d (minute dt) ++ ":" ++ Py.fmt_02d (second dt) ++ " +0000".

Definition format_itunes_duration (seconds : Z) : string :=
  let h := seconds / 3600 in
  let m := (seconds mod 3600) / 60 in
  let s := seconds mod 60 in
  if h >? 0
  then Py.fmt_02d h ++ ":" ++ Py.fmt_02d m ++ ":" ++ Py.fmt_02d s
  else Py.fmt_02d m ++ ":" ++ Py.fmt_02d s.

Definition xml_escape (text : string) : string :=
  Py.replace "'" "&apos;"
    (Py.replace Py.dq "&quot;"
       (Py.replace ">" "&gt;"
          (Py.replace "<" "&lt;"
             (Py.replace "&" "&amp;" text)))).

(** ** Episode records

    The dict built by the extractor and by the fallback list.  The key
    [audio_url] is optional: [None] stands for a missing key and for the
    value [None], which [ep.get("audio_url")] does not tell apart. *)

Record episode : Type := mkep {
  title : string;
  date : datetime;
  duration : Z;
  url : string;
  episode_id : string;
  audio_url : option string
}.

(** ** Episode extractor

    The markup is read by BeautifulSoup, a library outside this program.
    What the extractor consumes of a parsed page is its [a] tags in document
    order, each with its [href] attribute, if any, and the text nodes below
    it. *)

Record anchor : Type := mkanchor {
  href : option string;
  text_nodes : list string
}.

(** [tag.stripped_strings] *)
Definition stripped_strings (link : anchor) : list string :=
  filter truthy (map Py.strip (text_nodes link)).

(** [tag.get_text(strip=True)] *)
Definition get_text_strip (link : anchor) : string :=
  Py.join "" (stripped_strings link).

(** The pattern [/play/p8339/e(\d+)/panfletos]; the result is group 1. *)
Definition ep_pattern (s : string) : option string :=
  Re.lit ("/play/" ++ PROGRAM_ID ++ "/e")
    (fun rest =>
       Re.plus Py.is_digit
         (fun g1 rest' => Re.lit ("/" ++ PROGRAM_SLUG) (fun _ => Some g1) rest')
         rest)
    s.

(** [soup.find_all("a", href=ep_pattern)] *)
Definition find_all (anchors : list anchor) : list anchor :=
  filter
    (fun link =>
       match href link with
       | Some h => match Re.search ep_pattern h with
                   | Some _ => true
                   | None => false
                   end
       | None => false
       end)
    anchors.

(** The body of the [for] loop; [episodes] is the list built so far.  The
    clock readings of one run are taken to be the same reading [now]. *)
Fixpoint scrape_loop (now : datetime) (links : list anchor)
  (episodes : list episode) : result (list episode) :=
  match links with
  | [] => Ok episodes
  | link :: links' =>
      let href := match href link with Some h => h | None => "" end in
      match Re.search ep_pattern href with
      | None => scrape_loop now links' episodes
      | Some episode_id =>
          let title_text := get_text_strip link in
          let parts := map Py.strip (stripped_strings link) in
          let title := match parts with t :: _ => t | [] => title_text end in
          let date_str := match parts with _ :: d :: _ => d | _ => "" end in
          let duration_str :=
            match parts with _ :: _ :: d :: _ => d | _ => "" end in
          ep_date <- (if truthy date_str then parse_pt_date now date_str
                      else Ok now) ;;
          duration_secs <- (if truthy duration_str
                            then parse_duration duration_str
                            else Ok 0) ;;
          scrape_loop now links'
            (Py.append episodes
               (mkep title ep_date duration_secs (BASE_URL ++ href)
                  episode_id None))
      end
  end.

(** The extractor on a parsed page. *)
Definition scrape_episodes_from_soup (now : datetime)
  (anchors : list anchor) : result (list episode) :=
  scrape_loop now (find_all anchors) [].

Section Markup.
(** BeautifulSoup's reading of a page, as far as the extractor sees it. *)
Variable soup_anchors : string -> list anchor.

Definition scrape_episodes_from_html (now : datetime)
  (html_content : string) : result (list episode) :=
  scrape_episodes_from_soup now (soup_anchors html_content).
End Markup.

(** ** Feed renderer *)

Definition channel_lines (now : datetime) : list string :=
  let q := Py.dq in
  ["<?xml version=" ++ q ++ "1.0" ++ q ++ " encoding=" ++ q ++ "UTF-8" ++ q
     ++ "?>";
   "<rss version=" ++ q ++ "2.0" ++ q;
   "  xmlns:itunes=" ++ q ++ "http://www.itunes.com/dtds/podcast-1.0.dtd"
     ++ q;
   "  xmlns:atom=" ++ q ++ "http://www.w3.org/2005/Atom" ++ q ++ ">";
   "  <channel>";
   "    <title>" ++ xml_escape PROGRAM_TITLE ++ "</title>";
   "    <link>" ++ PROGRAM_URL ++ "</link>";
   "    <description>" ++ xml_escape PROGRAM_DESCRIPTION ++ "</description>";
   "    <language>" ++ PROGRAM_LANGUAGE ++ "</language>";
   "    <copyright>" ++ copyright_sign ++ " RTP - R" ++ a_acute
     ++ "dio e Televis" ++ a_tilde ++ "o de Portugal</copyright>";
   "    <lastBuildDate>" ++ format_rfc822 now ++ "</lastBuildDate>";
   "    <generator>Panfletos RSS Generator</generator>";
   "    <atom:link href=" ++ q ++ FEED_SELF_URL ++ q ++ " rel=" ++ q ++ "self"
     ++ q ++ " type=" ++ q ++ "application/rss+xml" ++ q ++ "/>";
   "    <itunes:author>" ++ xml_escape PROGRAM_AUTHOR ++ "</itunes:author>";
   "    <itunes:summary>" ++ xml_escape PROGRAM_DESCRIPTION
     ++ "</itunes:summary>";
   "    <itunes:type>episodic</itunes:type>";
   "    <itunes:explicit>false</itunes:explicit>";
   "    <itunes:owner>";
   "      <itunes:name>" ++ xml_escape PROGRAM_AUTHOR ++ "</itunes:name>";
   "    </itunes:owner>";
   "    <itunes:category text=" ++ q ++ PROGRAM_CATEGORY ++ q ++ "/>";
   "    <image>";
   "      <url>" ++ PROGRAM_IMAGE ++ "</url>";
   "      <title>" ++ xml_escape PROGRAM_TITLE ++ "</title>";
   "      <link>" ++ PROGRAM_URL ++ "</link>";
   "    </image>";
   "    <itunes:image href=" ++ q ++ PROGRAM_IMAGE ++ q ++ "/>"].

(** One pass of the [for ep in episodes] loop over the list [lines]. *)
Definition append_item (lines : list string) (ep : episode) : list string :=
  let q := Py.dq in
  let lines := Py.append lines "    <item>" in
  let lines :=
    Py.append lines ("      <title>" ++ xml_escape (title ep) ++ "</title>") in
  let lines := Py.append lines ("      <link>" ++ url ep ++ "</link>") in
  let lines :=
    Py.append lines
      ("      <guid isPermaLink=" ++ q ++ "false" ++ q ++ ">rtp-panfletos-e"
       ++ episode_id ep ++ "</guid>") in
  let lines :=
    Py.append lines
      ("      <pubDate>" ++ format_rfc822 (date ep) ++ "</pubDate>") in
  let lines :=
    Py.append lines
      ("      <description>" ++ xml_escape (title ep) ++ " - "
       ++ xml_escape PROGRAM_TITLE ++ " com " ++ xml_escape PROGRAM_AUTHOR
       ++ " na " ++ CHANNEL ++ ".</description>") in
  let lines :=
    match audio_url ep with
    | Some audio_url =>
        if truthy audio_url
        then Py.append lines
               ("      <enclosure url=" ++ q ++ xml_escape audio_url ++ q
                ++ " length=" ++ q ++ "0" ++ q ++ " type=" ++ q
                ++ "audio/mpeg" ++ q ++ "/>")
        else lines
    | None => lines
    end in
  let lines :=
    if duration ep >? 0
    then Py.append lines
           ("      <itunes:duration>" ++ format_itunes_duration (duration ep)
            ++ "</itunes:duration>")
    else lines in
  let lines :=
    Py.append lines
      ("      <itunes:author>" ++ xml_escape PROGRAM_AUTHOR
       ++ "</itunes:author>") in
  let lines :=
    Py.append lines
      ("      <itunes:summary>" ++ xml_escape (title ep)
       ++ " - Panfletos: m" ++ u_acute ++ "sica-pol" ++ i_acute
       ++ "tica, can" ++ c_cedil ++ o_tilde
       ++ "es-poder, criatividade-resist" ++ e_circ
       ++ "ncia.</itunes:summary>") in
  Py.append lines "    </item>".

(** The list [lines] when the function reaches its [return]. *)
Definition rss_lines (now : datetime) (episodes : list episode)
  : list string :=
  let lines := channel_lines now in
  let lines := fold_left append_item episodes lines in
  let lines := Py.append lines "  </channel>" in
  Py.append lines "</rss>".

Definition generate_rss (now : datetime) (episodes : list episode) : string :=
  Py.join (Py.chr 10) (rss_lines now episodes).

(** ** Fallback episode source *)

Definition hardcoded (t : string) (y m d : Z) (dur : Z) (id : string)
  : episode :=
  mkep t (mkdt y m d 12 0 0 0) dur
    (BASE_URL ++ "/play/" ++ PROGRAM_ID ++ "/e" ++ id ++ "/" ++ PROGRAM_SLUG)
    id None.

Definition hardcoded_episodes : list episode :=
  let q := Py.dq in
  [hardcoded ("Cara de Espelho e " ++ q ++ "A Seita" ++ q)
     2026 2 11 420 "908229";
   hardcoded ("Bad Bunny e " ++ q ++ "DtMF" ++ q) 2026 2 10 420 "907966";
   hardcoded ("Moonspell e " ++ q ++ "Desastre" ++ q) 2026 2 9 420 "907751";
   hardcoded "Semana de 02 a 06 de Fevereiro de 2026" 2026 2 7 1620 "907740";
   hardcoded ("Carlos Paredes e " ++ q ++ "Verdes Anos" ++ q)
     2026 2 6 420 "907254";
   hardcoded "Verdi e o coro dos escravos hebreus" 2026 2 5 420 "907010";
   hardcoded ("Billy Bragg e " ++ q ++ "City of Heroes" ++ q)
     2026 2 4 420 "906746";
   hardcoded ("Nicki Minaj e " ++ q ++ "Black Barbies" ++ q)
     2026 2 3 420 "906461";
   hardcoded ("Bruce Springsteen e " ++ q ++ "Streets of Minneapolis" ++ q)
     2026 2 2 420 "906203";
   hardcoded "Semana de 26 a 30 de Janeiro de 2026" 2026 1 31 1920 "905765";
   hardcoded ("Dino d'Santiago e " ++ q ++ "Utopia" ++ q)
     2026 1 30 420 "905712";
   hardcoded ("Pedro Abrunhosa e " ++ q ++ "Oxal" ++ a_acute
              ++ " o meu vestido ainda se lembre de mim" ++ q)
     2026 1 29 420 "905426"].

Definition generate_feed_from_hardcoded_data (now : datetime) : string :=
  generate_rss now hardcoded_episodes.

(** ** Effects

    [extract_audio_url], [fetch_episodes_online] and [main] reach outside
    the program: they import libraries that may not be installed, fetch a
    page, run the stream extractor, print progress messages and write the
    feed.  A run gives a value or an exception, and the events it produced,
    in order. *)

Inductive failure : Type :=
| Raised (e : exn)             (* an exception of the helpers above *)
| ImportError (name : string)  (* [import name] found no module *)
| External (text : string).    (* raised by a library or by the system *)

Inductive outcome (A : Type) : Type :=
| Returned (a : A)
| Failed (f : failure).

Arguments Returned {A} a.
Arguments Failed {A} f.

Inductive event : Type :=
| Print (line : string)
| WriteFile (path content : string).

Definition io (A : Type) : Type := (outcome A * list event)%type.

Definition ret {A : Type} (a : A) : io A := (Returned a, []).

Definition raise {A : Type} (f : failure) : io A := (Failed f, []).

Definition print (line : string) : io unit := (Returned tt, [Print line]).

Definition io_bind {A B : Type} (m : io A) (k : A -> io B) : io B :=
  match m with
  | (Returned a, out) => let (r, out') := k a in (r, (out ++ out')%list)
  | (Failed f, out) => (Failed f, out)
  end.

Notation "x <~ e ;; k" := (io_bind e (fun x => k))
  (at level 61, e at next level, right associativity).

Notation "e ;;; k" := (io_bind e (fun _ => k))
  (at level 61, right associativity).

(** [try: body except Exception as e: handler] *)
Definition try_except {A : Type} (body : io A) (handler : failure -> io A)
  : io A :=
  match body with
  | (Failed f, out) => let (r, out') := handler f in (r, (out ++ out')%list)
  | (Returned a, out) => (Returned a, out)
  end.

(** What [ydl.extract_info] gives for a page: an exception with its text,
    or the [info] object.  Of [info] the program reads its truth value and
    its entry [url]: [None] is an [info] that counts as false ([None], an
    empty dict), [Some None] one without a [url] or with the value [None],
    [Some (Some u)] one with the text [u]. *)
Inductive ydl_outcome : Type :=
| YdlRaised (text : string)
| YdlInfo (info : option (option string)).

(** The surroundings of a run.
    - [installed name]: [import name] finds the module.
    - [requests_get url]: the text of the page, or the text of the exception
      that [requests.get] or [raise_for_status] raises.
    - [html_parser]: BeautifulSoup's reading of a page.
    - [extract_info]: the stream extractor.
    - [open_error path]: the text of the exception that opening or writing
      the file raises, if it does.
    - [exn_text e]: the text Python gives the exception of a helper; the
      helpers of this file carry its class only. *)
Record world : Type := mkworld {
  installed : string -> bool;
  requests_get : string -> string + string;
  html_parser : string -> list anchor;
  extract_info : string -> ydl_outcome;
  open_error : string -> option string;
  exn_text : exn -> string
}.

Definition import_module (w : world) (name : string) : io unit :=
  if installed w name then ret tt else raise (ImportError name).

(** [str(e)] *)
Definition failure_text (w : world) (f : failure) : string :=
  match f with
  | Raised e => exn_text w e
  | ImportError name => "No module named '" ++ name ++ "'"
  | External text => text
  end.

(** A helper's result as the outcome of a run. *)
Definition lift {A : Type} (r : result A) : io A :=
  match r with
  | Ok a => ret a
  | Raise e => raise (Raised e)
  end.

(** ** Audio resolution *)

Definition extract_audio_url (w : world) (episode_url : string)
  : io (option string) :=
  import_module w "yt_dlp" ;;;
  try_except
    match extract_info w episode_url with
    | YdlRaised text => raise (External text)
    | YdlInfo info =>
        match info with
        | Some (Some u) => if truthy u then ret (Some u) else ret None
        | _ => ret None
        end
    end
    (fun e =>
       print ("  yt-dlp failed for " ++ episode_url ++ ": "
              ++ failure_text w e) ;;;
       ret None).

(** ** Live fetch *)

(** [ep["audio_url"] = audio] *)
Definition set_audio_url (ep : episode) (audio : option string) : episode :=
  mkep (title ep) (date ep) (duration ep) (url ep) (episode_id ep) audio.

(** Truth value of an optional [str]. *)
Definition truthy_opt (o : option string) : bool :=
  match o with
  | Some s => truthy s
  | None => false
  end.

(** The [for i, ep in enumerate(episodes)] loop from index [i] on; [total]
    is [len(episodes)].  The records are updated in place, so the result is
    the list with the records as the loop leaves them. *)
Fixpoint resolve_loop (w : world) (total : nat) (i : nat)
  (episodes : list episode) : io (list episode) :=
  match episodes with
  | [] => ret []
  | ep :: rest =>
      print ("  Extracting audio URL [" ++ Py.str (Z.of_nat i + 1) ++ "/"
             ++ Py.str (Z.of_nat total) ++ "]: " ++ title ep) ;;;
      audio <~ extract_audio_url w (url ep) ;;
      let ep := set_audio_url ep audio in
      print (if truthy_opt (audio_url ep) then "    OK"
             else "    No audio URL found") ;;;
      rest <~ resolve_loop w total (S i) rest ;;
      ret (ep :: rest)
  end.

(** The extractor as [fetch_episodes_online] calls it, with its import. *)
Definition scrape_page (w : world) (now : datetime) (html_content : string)
  : io (list episode) :=
  import_module w "bs4" ;;;
  lift (scrape_episodes_from_html (html_parser w) now html_content).

Definition fetch_episodes_online (w : world) (now : datetime)
  : io (list episode) :=
  import_module w "requests" ;;;
  let url := PROGRAM_URL in
  print ("Fetching " ++ url ++ "...") ;;;
  text <~ match requests_get w url with
          | inr text => ret text
          | inl err => raise (External err)
          end ;;
  episodes <~ scrape_page w now text ;;
  print ("Found " ++ Py.str (Z.of_nat (List.length episodes)) ++ " episodes")
  ;;;
  resolve_loop w (List.length episodes) 0 episodes.

(** ** Entry point *)

(** The parsed command line: [--output] (default [panfletos_rss.xml]) and
    [--offline]. *)
Record arguments : Type := mkargs {
  output : string;
  offline : bool
}.

Definition default_output : string := "panfletos_rss.xml".

(** [with open(path, "w", encoding="utf-8") as f: f.write(content)] *)
Definition write_file (w : world) (path content : string) : io unit :=
  match open_error w path with
  | Some err => raise (External err)
  | None => (Returned tt, [WriteFile path content])
  end.

Definition main (w : world) (now : datetime) (args : arguments) : io unit :=
  xml_content <~
    (if offline args
     then
       print "Generating feed from hardcoded data (offline mode)..." ;;;
       ret (generate_feed_from_hardcoded_data now)
     else
       try_except
         (episodes <~ fetch_episodes_online w now ;;
          match episodes with
          | [] =>
              print "No episodes found, falling back to hardcoded data" ;;;
              ret (generate_feed_from_hardcoded_data now)
          | _ => ret (generate_rss now episodes)
          end)
         (fun e =>
            print ("Error fetching online data: " ++ failure_text w e) ;;;
            print "Falling back to hardcoded data..." ;;;
            ret (generate_feed_from_hardcoded_data now))) ;;
  write_file w (output args) xml_content ;;;
  print ("RSS feed saved to: " ++ output args) ;;;
  print ("Feed URL for your reader: file://" ++ output args).

(** ** Well-formed XML

    The reading of well-formedness used for the renderer's output: a
    recogniser for XML 1.0 documents (declaration, comments, processing
    instructions, elements with attributes, character data, CDATA sections,
    character references and the five predefined entity references).  With no
    DTD a document can declare no entity of its own; document type
    declarations are not recognised. *)

Module Xml.

Definition is_s (c : ascii) : bool :=
  let n := Py.code c in ((n =? 32) || (n =? 9) || (n =? 13) || (n =? 10))%N.

Definition is_char (c : ascii) : bool :=
  let n := Py.code c in ((n =? 9) || (n =? 10) || (n =? 13) || (32 <=? n))%N.

Definition is_name_start (c : ascii) : bool :=
  (c =? ":")%char || Py.in_range 65 90 c || (c =? "_")%char
  || Py.in_range 97 122 c || Py.in_range 192 214 c || Py.in_range 216 246 c
  || Py.in_range 248 255 c.

Definition is_name_char (c : ascii) : bool :=
  is_name_start c || (c =? "-")%char || (c =? ".")%char
  || Py.in_range 48 57 c || (Py.code c =? 183)%N.

Definition is_hex (c : ascii) : bool :=
  Py.in_range 48 57 c || Py.in_range 65 70 c || Py.in_range 97 102 c.

Definition hex_val (c : ascii) : Z :=
  let n := Z.of_N (Py.code c) in
  if Py.in_range 48 57 c then n - 48
  else if Py.in_range 65 70 c then n - 55 else n - 87.

Definition skip_s (s : string) : string := snd (Py.span is_s s).

Definition starts_with_s (s : string) : bool :=
  match s with
  | String c _ => is_s c
  | "" => false
  end.

Definition read_name (s : string) : option (string * string) :=
  match s with
  | String c _ => if is_name_start c then Some (Py.span is_name_char s) else None
  | "" => None
  end.

(** The text before and after the first occurrence of [pat]. *)
Fixpoint split_at (pat s : string) : option (string * string) :=
  if prefix pat s then Some ("", Py.drop (String.length pat) s)
  else match s with
       | "" => None
       | String c s' =>
           match split_at pat s' with
           | Some (a, b) => Some (String c a, b)
           | None => None
           end
       end.

(** Code points a character reference may name. *)
Definition legal_char (v : Z) : bool :=
  (v =? 9) || (v =? 10) || (v =? 13) || between 32 55295 v
  || between 57344 65533 v || between 65536 1114111 v.

Definition predefined : list string := ["amp"; "lt"; "gt"; "apos"; "quot"].

Definition char_ref (cls : ascii -> bool) (base : Z) (val : ascii -> Z)
  (s : string) : option string :=
  match Py.span cls s with
  | (String c ds, String ";" r) =>
      if legal_char (Py.number base val 0 (String c ds)) then Some r else None
  | _ => None
  end.

(** A reference, read after its ampersand; the result is what follows. *)
Definition reference (s : string) : option string :=
  match s with
  | String "#" (String "x" r) => char_ref is_hex 16 hex_val r
  | String "#" r => char_ref Py.is_digit 10 Py.digit_val r
  | _ =>
      match read_name s with
      | Some (n, String ";" r) =>
          if existsb (String.eqb n) predefined then Some r else None
      | _ => None
      end
  end.

(** An attribute value, read after its opening quote [qc]: the raw value
    and what follows the closing quote. *)
Fixpoint att_value (fuel : nat) (qc : ascii) (s : string)
  : option (string * string) :=
  match fuel, s with
  | S fuel', String c r =>
      if (c =? qc)%char then Some ("", r)
      else if (c =? "<")%char then None
      else if (c =? "&")%char then
        match reference r with
        | Some r' =>
            match att_value fuel' qc r' with
            | Some (v, rest) => Some (String c v, rest)
            | None => None
            end
        | None => None
        end
      else if is_char c then
        match att_value fuel' qc r with
        | Some (v, rest) => Some (String c v, rest)
        | None => None
        end
      else None
  | _, _ => None
  end.

(** Attributes, each after white space and with a name not seen before;
    the result has them latest first, and the text at the end of the tag. *)
Fixpoint attributes (fuel : nat) (seen : list (string * string)) (s : string)
  : option (list (string * string) * string) :=
  match fuel with
  | O => None
  | S fuel' =>
      let s1 := skip_s s in
      match read_name s1 with
      | None => Some (seen, s1)
      | Some (n, r) =>
          if starts_with_s s
             && negb (existsb (fun a => String.eqb n (fst a)) seen)
          then
            match skip_s r with
            | String "=" r1 =>
                match skip_s r1 with
                | String qc r2 =>
                    if (qc =? "'")%char || (Py.code qc =? 34)%N then
                      match att_value fuel' qc r2 with
                      | Some (v, r3) => attributes fuel' ((n, v) :: seen) r3
                      | None => None
                      end
                    else None
                | "" => None
                end
            | _ => None
            end
          else None
      end
  end.

(** A comment, read after its opening: no double hyphen inside. *)
Definition comment (s : string) : option string :=
  match split_at "--" s with
  | Some (body, String ">" r) => if Py.all is_char body then Some r else None
  | _ => None
  end.

(** A processing instruction, read after its opening. *)
Definition instruction (s : string) : option string :=
  match read_name s with
  | Some (target, r) =>
      if (Py.lower target =? "xml")%string then None
      else if prefix "?>" r then Some (Py.drop 2 r)
      else match r with
           | String c r1 =>
               if is_s c then
                 match split_at "?>" r1 with
                 | Some (body, r2) =>
                     if Py.all is_char body then Some r2 else None
                 | None => None
                 end
               else None
           | "" => None
           end
  | None => None
  end.

Definition cdata (s : string) : option string :=
  match split_at "]]>" s with
  | Some (body, r) => if Py.all is_char body then Some r else None
  | None => None
  end.

(** A start tag or empty-element tag, read after its [<]: the element name,
    whether the tag is empty, and what follows. *)
Definition open_tag (fuel : nat) (s : string)
  : option (string * bool * string) :=
  match read_name s with
  | Some (n, r) =>
      match attributes fuel [] r with
      | Some (_, String ">" r') => Some (n, false, r')
      | Some (_, String "/" (String ">" r')) => Some (n, true, r')
      | _ => None
      end
  | None => None
  end.

(** The content of the open elements [stack], innermost first, and after
    the root element closes the trailing comments, instructions and white
    space. *)
Fixpoint content (fuel : nat) (stack : list string) (s : string) : bool :=
  match fuel with
  | O => false
  | S fuel' =>
      match s with
      | "" => match stack with [] => true | _ => false end
      | String c r =>
          if (c =? "<")%char then
            if prefix "!--" r then
              match comment (Py.drop 3 r) with
              | Some r' => content fuel' stack r'
              | None => false
              end
            else if prefix "?" r then
              match instruction (Py.drop 1 r) with
              | Some r' => content fuel' stack r'
              | None => false
              end
            else
              match stack with
              | [] => false
              | top :: below =>
                  if prefix "![CDATA[" r then
                    match cdata (Py.drop 8 r) with
                    | Some r' => content fuel' stack r'
                    | None => false
                    end
                  else if prefix "/" r then
                    match read_name (Py.drop 1 r) with
                    | Some (n, r1) =>
                        match skip_s r1 with
                        | String ">" r2 =>
                            (n =? top)%string && content fuel' below r2
                        | _ => false
                        end
                    | None => false
                    end
                  else
                    match open_tag fuel' r with
                    | Some (n, false, r') => content fuel' (n :: stack) r'
                    | Some (_, true, r') => content fuel' stack r'
                    | None => false
                    end
              end
          else if (c =? "&")%char then
            match stack with
            | [] => false
            | _ =>
                match reference r with
                | Some r' => content fuel' stack r'
                | None => false
                end
            end
          else
            match stack with
            | [] => is_s c && content fuel' stack r
            | _ =>
                is_char c && negb (prefix "]]>" s) && content fuel' stack r
            end
      end
  end.

(** Comments, instructions and white space before the root element. *)
Fixpoint misc (fuel : nat) (s : string) : option string :=
  match fuel with
  | O => None
  | S fuel' =>
      match s with
      | String "<" r =>
          if prefix "!--" r then
            match comment (Py.drop 3 r) with
            | Some r' => misc fuel' r'
            | None => None
            end
          else if prefix "?" r then
            match instruction (Py.drop 1 r) with
            | Some r' => misc fuel' r'
            | None => None
            end
          else Some s
      | String c r => if is_s c then misc fuel' r else None
      | "" => None
      end
  end.

Definition version_num (v : string) : bool :=
  match v with
  | String "1" (String "." (String c ds)) => Py.all Py.is_digit (String c ds)
  | _ => false
  end.

Definition enc_name (v : string) : bool :=
  match v with
  | String c r =>
      (Py.in_range 65 90 c || Py.in_range 97 122 c)
      && Py.all (fun x => Py.in_range 65 90 x || Py.in_range 97 122 x
                       || Py.in_range 48 57 x || (x =? ".")%char
                       || (x =? "_")%char || (x =? "-")%char) r
  | "" => false
  end.

Definition yes_no (v : string) : bool :=
  (v =? "yes")%string || (v =? "no")%string.

(** The pseudo-attributes of the declaration, in document order. *)
Definition decl_attributes (atts : list (string * string)) : bool :=
  match atts with
  | [("version", v)] => version_num v
  | [("version", v); ("encoding", e)] => version_num v && enc_name e
  | [("version", v); ("standalone", a)] => version_num v && yes_no a
  | [("version", v); ("encoding", e); ("standalone", a)] =>
      version_num v && enc_name e && yes_no a
  | _ => false
  end.

(** The optional XML declaration; the result is what follows it. *)
Definition declaration (fuel : nat) (s : string) : option string :=
  if prefix "<?xml" s && negb (Py.all is_name_char (substring 5 1 s)
                               && negb (substring 5 1 s =? "")%string)
  then
    match attributes fuel [] (Py.drop 5 s) with
    | Some (atts, String "?" (String ">" r)) =>
        if decl_attributes (rev atts) then Some r else None
    | _ => None
    end
  else Some s.

Definition well_formed (doc : string) : bool :=
  let fuel := S (String.length doc) in
  match declaration fuel doc with
  | Some s =>
      match misc fuel s with
      | Some (String "<" r) =>
          match open_tag fuel r with
          | Some (n, false, r') => content fuel [n] r'
          | Some (_, true, r') => content fuel [] r'
          | None => false
          end
      | _ => false
      end
  | None => false
  end.

End Xml.

(** ** Reference descriptions

    The definitions below are not part of the program: they say, in the
    words of its description, what the program is compared with. *)

(** Replace every character [c] of [s] by the text [f c]. *)
Fixpoint subst_chars (f : ascii -> string) (s : string) : string :=
  match s with
  | "" => ""
  | String c s' => f c ++ subst_chars f s'
  end.

(** The escape of one character: the five reserved characters have an
    entity, every other character stands for itself. *)
Definition escape_char (c : ascii) : string :=
  if (c =? "&")%char then "&amp;"
  else if (c =? "<")%char then "&lt;"
  else if (c =? ">")%char then "&gt;"
  else if (Py.code c =? 34)%N then "&quot;"
  else if (c =? "'")%char then "&apos;"
  else String c "".

(** The value of a run of decimal digits. *)
Definition dec_val (s : string) : Z := Py.number 10 Py.digit_val 0 s.

(** The text [parse_pt_date] splits into tokens. *)
Definition cleaned (date_str : string) : string :=
  Py.strip (Py.replace "." "" (Py.strip date_str)).


(** A character that [split] keeps and the removal of periods leaves. *)
Definition is_word_char (c : ascii) : bool :=
  negb (Py.is_space c) && negb (c =? ".")%char.

(** A clock reading for the examples. *)
Definition sample_now : datetime := mkdt 2026 11 4 9 30 15 123.



(** A number below one hundred written with exactly two digits. *)
Definition digit_char (d : Z) : ascii := ascii_of_N (48 + Z.to_N d).

Definition two_digits (n : Z) : string :=
  String (digit_char (n / 10)) (String (digit_char (n mod 10)) "").

(** The lines one pass of the renderer's loop appends for a record. *)
Definition item_lines (ep : episode) : list string := append_item [] ep.

(** The lines of an item the statements name. *)
Definition link_line (ep : episode) : string :=
  "      <link>" ++ url ep ++ "</link>".

Definition guid_line (ep : episode) : string :=
  "      <guid isPermaLink=" ++ Py.dq ++ "false" ++ Py.dq
  ++ ">rtp-panfletos-e" ++ episode_id ep ++ "</guid>".

Definition enclosure_line (audio : string) : string :=
  "      <enclosure url=" ++ Py.dq ++ xml_escape audio ++ Py.dq
  ++ " length=" ++ Py.dq ++ "0" ++ Py.dq ++ " type=" ++ Py.dq ++ "audio/mpeg"
  ++ Py.dq ++ "/>".

Definition duration_line (seconds : Z) : string :=
  "      <itunes:duration>" ++ format_itunes_duration seconds
  ++ "</itunes:duration>".

(** Lines that open an element of the given kind inside an item. *)
Definition is_enclosure (line : string) : bool :=
  prefix "      <enclosure" line.

Definition is_duration (line : string) : bool :=
  prefix "      <itunes:duration>" line.

Definition is_guid (line : string) : bool := prefix "      <guid" line.

Definition is_item_open (line : string) : bool := prefix "    <item>" line.

(** Two texts differ at a position that both have. *)
Fixpoint clash (p a : string) : bool :=
  match p, a with
  | String c p', String d a' => negb (c =? d)%char || clash p' a'
  | _, _ => false
  end.

(** Occurrences of the text [p] in [s]. *)
Fixpoint count_sub (p s : string) : nat :=
  match s with
  | "" => 0
  | String _ s' => (if prefix p s then 1 else 0) + count_sub p s'
  end.

(** An episode whose page address carries a query string, and one with a
    resolved audio stream. *)
Definition query_episode : episode :=
  mkep "Um panfleto" (mkdt 2026 2 11 12 0 0 0) 420
    (BASE_URL ++ "/play/p8339/e908229/panfletos?a=1&b=2") "908229" None.


(** No character of [s] opens a tag. *)
Definition no_lt (s : string) : bool :=
  Py.all (fun c => negb (c =? "<")%char) s.

(** No end of [a] is the start of an occurrence of [p] that would run
    beyond [a]. *)
Fixpoint no_overlap (p a : string) : bool :=
  match a with
  | "" => true
  | String _ a' => (clash p a || prefix p a) && no_overlap p a'
  end.

(** A record whose address and identifier open no tag. *)
Definition plain_addresses (ep : episode) : bool :=
  no_lt (url ep) && no_lt (episode_id ep).

(** The identifiers carried by the links of a page, in document order. *)
Definition link_id (link : anchor) : option string :=
  Re.search ep_pattern match href link with Some h => h | None => "" end.

Definition link_ids (anchors : list anchor) : list string :=
  flat_map (fun link => match link_id link with
                        | Some id => [id]
                        | None => []
                        end)
    anchors.

(** A page that links one episode twice, from its picture and from its
    title, and the two [a] tags a reading of it has. *)
Definition twice_linked_page : string :=
  "<a href='/play/p8339/e908229/panfletos'><img src='e908229.jpg'/></a>"
  ++ "<a href='/play/p8339/e908229/panfletos'>Cara de Espelho</a>".

Definition twice_linked : list anchor :=
  [mkanchor (Some "/play/p8339/e908229/panfletos") [];
   mkanchor (Some "/play/p8339/e908229/panfletos") ["Cara de Espelho"]].

Definition read_twice_linked (html_content : string) : list anchor :=
  if (html_content =? twice_linked_page)%string then twice_linked else [].

(** The pattern of the extractor matches at the start of [s] with the
    digits [id] as its group. *)
Definition episode_at (s id : string) : Prop :=
  exists rest,
    s = "/play/p8339/e" ++ id ++ "/panfletos" ++ rest
    /\ id <> "" /\ Py.all Py.is_digit id = true.

(** A link whose second text fragment has three words and is no date. *)
Definition undated_link : anchor :=
  mkanchor (Some "/play/p8339/e908229/panfletos")
    ["Um panfleto"; "data por anunciar"; "7min"].

(** A link whose address carries a query string. *)
Definition query_link : anchor :=
  mkanchor (Some "/play/p8339/e908229/panfletos?a=1&b=2")
    ["Um panfleto"; "11 fev. 2026"; "7min"].

(** The recogniser accepts [s] as the rest of a document whose open
    elements are [stack], with any fuel above the length of [s]. *)
Definition accepts (stack : list string) (s : string) : Prop :=
  forall fuel, (String.length s < fuel)%nat -> Xml.content fuel stack s = true.

(** A character that stands for itself in character data. *)
Definition is_text_char (c : ascii) : bool :=
  Xml.is_char c && negb (c =? "<")%char && negb (c =? "&")%char
  && negb (c =? ">")%char.

Definition text_safe (s : string) : bool := Py.all is_text_char s.

(** A text that does not go on a pair of closing brackets with the end of
    a CDATA section. *)
Definition safe_head (s : string) : bool :=
  match s with
  | String c _ => negb (c =? "]")%char && negb (c =? ">")%char
  | "" => true
  end.

(** A record the renderer writes well: the title and the audio URL hold
    characters XML allows, the address and the identifier are plain
    character data. *)
Definition clean_record (ep : episode) : bool :=
  Py.all Xml.is_char (title ep) && text_safe (url ep)
  && text_safe (episode_id ep)
  && match audio_url ep with
     | Some u => Py.all Xml.is_char u
     | None => true
     end.

Definition clean_records (episodes : list episode) : bool :=
  forallb clean_record episodes.

(** The lines, each followed by a line break. *)
Definition text_of (lines : list string) : string :=
  fold_right (fun l acc => l ++ String (ascii_of_nat 10) acc) "" lines.

(** ** Further reference descriptions *)

(** The five characters [xml_escape] replaces. *)
Definition reserved (c : ascii) : bool :=
  (c =? "&")%char || (c =? "<")%char || (c =? ">")%char
  || (Py.code c =? 34)%N || (c =? "'")%char.

(** Every ampersand of [s] opens one of the five entities. *)
Fixpoint entities_only (s : string) : bool :=
  match s with
  | "" => true
  | String c r =>
      (if (c =? "&")%char
       then prefix "amp;" r || prefix "lt;" r || prefix "gt;" r
            || prefix "quot;" r || prefix "apos;" r
       else true)
      && entities_only r
  end.

(** A character [xml_escape] never writes. *)
Definition is_markup_char (c : ascii) : bool :=
  (c =? "<")%char || (c =? ">")%char || (Py.code c =? 34)%N
  || (c =? "'")%char.


(** The last character of [s] is no digit. *)
Fixpoint ends_without_digit (s : string) : bool :=
  match s with
  | "" => true
  | String c "" => negb (Py.is_digit c)
  | String _ r => ends_without_digit r
  end.

(** The day after a timestamp, at the same time of day. *)
Definition tomorrow (dt : datetime) : datetime :=
  if day dt <? days_in_month (year dt) (month dt)
  then mkdt (year dt) (month dt) (day dt + 1)
         (hour dt) (minute dt) (second dt) (microsecond dt)
  else if month dt <? 12
  then mkdt (year dt) (month dt + 1) 1
         (hour dt) (minute dt) (second dt) (microsecond dt)
  else mkdt (year dt + 1) 1 1
         (hour dt) (minute dt) (second dt) (microsecond dt).

(** The day of the week a timestamp's text opens with, and the name of
    the day that follows a day. *)
Definition day_name (dt : datetime) : string :=
  substring 0 3 (format_rfc822 dt).

Definition next_day_name (name : string) : string :=
  Py.dict_get
    [("Mon", "Tue"); ("Tue", "Wed"); ("Wed", "Thu"); ("Thu", "Fri");
     ("Fri", "Sat"); ("Sat", "Sun"); ("Sun", "Mon")]
    name "".

(** The address a link carries, and its text fragments that are not
    blank, by position. *)
Definition link_href (link : anchor) : string :=
  match href link with Some h => h | None => "" end.

Definition fragment (n : nat) (link : anchor) : string :=
  nth n (stripped_strings link) "".

(** The date and the duration the extractor reads off a link. *)
Definition link_date (now : datetime) (link : anchor) : result datetime :=
  if truthy (fragment 1 link) then parse_pt_date now (fragment 1 link)
  else Ok now.

Definition link_duration (link : anchor) : result Z :=
  if truthy (fragment 2 link) then parse_duration (fragment 2 link)
  else Ok 0.

(** A link and the record made of it. *)
Definition record_of (now : datetime) (link : anchor) (ep : episode) : Prop :=
  title ep = fragment 0 link
  /\ link_date now link = Ok (date ep)
  /\ link_duration link = Ok (duration ep)
  /\ url ep = BASE_URL ++ link_href link
  /\ link_id link = Some (episode_id ep)
  /\ audio_url ep = None.

(** A page with two episodes and a link that is none, and a page whose
    second episode has a date that does not parse. *)
Definition sample_links : list anchor :=
  [mkanchor (Some "/play/p8339/e908229/panfletos")
     ["Um panfleto"; " 11 fev. 2026 "; "7min"];
   mkanchor (Some "/play/p8339") ["Panfletos"];
   mkanchor (Some "/play/p8339/e907966/panfletos") ["Outro panfleto"]].

Definition sample_records : list episode :=
  [mkep "Um panfleto" (mkdt 2026 2 11 12 0 0 0) 420
     "https://www.rtp.pt/play/p8339/e908229/panfletos" "908229" None;
   mkep "Outro panfleto" sample_now 0
     "https://www.rtp.pt/play/p8339/e907966/panfletos" "907966" None].

Definition undated_links : list anchor :=
  [mkanchor (Some "/play/p8339/e908229/panfletos")
     ["Um panfleto"; "11 fev. 2026"; "7min"];
   undated_link;
   mkanchor (Some "/play/p8339/e907966/panfletos") ["Outro panfleto"]].

(** The files a run wrote, in order. *)
Definition files_written (events : list event) : list (string * string) :=
  flat_map (fun ev => match ev with
                      | WriteFile path content => [(path, content)]
                      | Print _ => []
                      end)
    events.

(** The stream the extractor reports for a page, if it reports one. *)
Definition reported_audio (w : world) (episode_url : string) : option string :=
  match extract_info w episode_url with
  | YdlInfo (Some (Some u)) => if truthy u then Some u else None
  | _ => None
  end.

(** The text [main] hands to the file: the rendering of the records a live
    fetch returned, when it returned some, and the fallback feed
    otherwise. *)
Definition feed_content (w : world) (now : datetime) (args : arguments)
  : string :=
  if offline args then generate_feed_from_hardcoded_data now
  else match fst (fetch_episodes_online w now) with
       | Returned (ep :: episodes) => generate_rss now (ep :: episodes)
       | _ => generate_feed_from_hardcoded_data now
       end.


(** Surroundings for the examples: everything installed and a page with
    two episodes, one of which has a stream; the same without [yt_dlp];
    and the same with a page whose second episode has no date. *)
Definition sample_world : world :=
  mkworld (fun _ => true) (fun _ => inr "<html></html>")
    (fun _ => sample_links)
    (fun page =>
       if (page =? "https://www.rtp.pt/play/p8339/e908229/panfletos")%string
       then YdlInfo (Some (Some "https://cdn.rtp.pt/audio.mp3?k=1&t=2"))
       else YdlRaised "Unsupported URL")
    (fun _ => None) (fun _ => "invalid literal for int()").

Definition bare_world : world :=
  mkworld (fun name => negb (name =? "yt_dlp")%string)
    (requests_get sample_world) (html_parser sample_world)
    (extract_info sample_world) (open_error sample_world)
    (exn_text sample_world).

Definition undated_world : world :=
  mkworld (installed sample_world) (requests_get sample_world)
    (fun _ => undated_links) (extract_info sample_world)
    (open_error sample_world) (exn_text sample_world).

Definition live_args : arguments := mkargs default_output false.

(** * Properties *)

(** ** Strings *)

Lemma append_nil_r (s : string) : s ++ "" = s.
Proof. induction s as [|c s IH]; simpl; [reflexivity | now rewrite IH]. Qed.

Lemma append_assoc (a b c : string) : (a ++ b) ++ c = a ++ (b ++ c).
Proof. induction a as [|x a IH]; simpl; [reflexivity | now rewrite IH]. Qed.

Lemma length_append (a b : string) :
  String.length (a ++ b) = (String.length a + String.length b)%nat.
Proof. induction a as [|x a IH]; simpl; [reflexivity | now rewrite IH]. Qed.

Lemma prefix_nil (s : string) : prefix "" s = true.
Proof. now destruct s. Qed.

Lemma prefix_cons (a b : ascii) (p s : string) :
  prefix (String a p) (String b s) = (a =? b)%char && prefix p s.
Proof.
  simpl. destruct (ascii_dec a b) as [->|n].
  - now rewrite Ascii.eqb_refl.
  - apply Ascii.eqb_neq in n. now rewrite n.
Qed.

(** ** Character-wise substitution *)

Lemma subst_chars_app (f : ascii -> string) (a b : string) :
  subst_chars f (a ++ b) = subst_chars f a ++ subst_chars f b.
Proof.
  induction a as [|c a IH]; simpl; [reflexivity|].
  now rewrite IH, append_assoc.
Qed.

Lemma subst_chars_compose (f g : ascii -> string) (s : string) :
  subst_chars g (subst_chars f s) = subst_chars (fun c => subst_chars g (f c)) s.
Proof.
  induction s as [|c s IH]; simpl; [reflexivity|].
  now rewrite subst_chars_app, IH.
Qed.

Lemma subst_chars_ext (f g : ascii -> string) (s : string) :
  (forall c, f c = g c) -> subst_chars f s = subst_chars g s.
Proof.
  intros E. induction s as [|c s IH]; simpl; [reflexivity|].
  now rewrite E, IH.
Qed.

(** [replace] with a one-character [old] substitutes character by
    character. *)
Lemma replace_char (a : ascii) (new s : string) :
  Py.replace (String a "") new s
  = subst_chars (fun c => if (c =? a)%char then new else String c "") s.
Proof.
  unfold Py.replace.
  induction s as [|c s IH]; [reflexivity|].
  cbn [Py.replace_from subst_chars].
  rewrite prefix_cons, prefix_nil, andb_true_r, Ascii.eqb_sym.
  cbn [String.length Nat.sub].
  destruct (c =? a)%char; rewrite IH; reflexivity.
Qed.

Lemma escape_pointwise (c : ascii) :
  subst_chars (fun c4 => if (c4 =? "'")%char then "&apos;" else String c4 "")
    (subst_chars
       (fun c3 => if (c3 =? ascii_of_nat 34)%char then "&quot;"
                  else String c3 "")
       (subst_chars (fun c2 => if (c2 =? ">")%char then "&gt;" else String c2 "")
          (subst_chars
             (fun c1 => if (c1 =? "<")%char then "&lt;" else String c1 "")
             (if (c =? "&")%char then "&amp;" else String c ""))))
  = escape_char c.
Proof. destruct c as [[] [] [] [] [] [] [] []]; reflexivity. Qed.

Lemma xml_escape_subst (s : string) :
  xml_escape s = subst_chars escape_char s.
Proof.
  unfold xml_escape, Py.dq.
  rewrite !replace_char, !subst_chars_compose.
  apply subst_chars_ext. intros c.
  rewrite <- !subst_chars_compose. apply escape_pointwise.
Qed.

(** C5. [xml_escape] is the sequential replacement of the source, and it
    equals the escape of [s] character by character: each reserved
    character becomes its entity once, every other character is kept, and
    the ampersands written by the later replacements are not escaped
    again. *)
Theorem xml_escape_char_by_char (s : string) :
  xml_escape s
  = Py.replace "'" "&apos;"
      (Py.replace Py.dq "&quot;"
         (Py.replace ">" "&gt;"
            (Py.replace "<" "&lt;" (Py.replace "&" "&amp;" s))))
  /\ xml_escape s = subst_chars escape_char s
  /\ xml_escape "A & B < C" = "A &amp; B &lt; C".
Proof.
  split; [reflexivity|]. split; [apply xml_escape_subst | reflexivity].
Qed.

(** Replacing the ampersand later would escape the ampersands of the
    entities already written. *)
Lemma ampersand_first :
  Py.replace "&" "&amp;" (Py.replace "<" "&lt;" "A & B < C")
  = "A &amp; B &amp;lt; C"
  /\ xml_escape (xml_escape "A & B < C") = "A &amp;amp; B &amp;lt; C".
Proof. split; reflexivity. Qed.

(** ** Stripping and splitting *)

Lemma all_app (p : ascii -> bool) (a b : string) :
  Py.all p (a ++ b) = Py.all p a && Py.all p b.
Proof.
  induction a as [|c a IH]; simpl; [reflexivity|].
  now rewrite IH, andb_assoc.
Qed.

Lemma all_impl (p q : ascii -> bool) (s : string) :
  (forall c, p c = true -> q c = true) ->
  Py.all p s = true -> Py.all q s = true.
Proof.
  intros I. induction s as [|c s IH]; simpl; [reflexivity|].
  intros H. apply andb_true_iff in H as [H1 H2].
  now rewrite (I _ H1), IH.
Qed.

Lemma digit_not_space (c : ascii) :
  Py.is_digit c = true -> Py.is_space c = false.
Proof.
  destruct c as [[] [] [] [] [] [] [] []]; vm_compute;
    intros H; congruence.
Qed.

Lemma digit_is_word_char (c : ascii) :
  Py.is_digit c = true -> is_word_char c = true.
Proof.
  intros H. unfold is_word_char. rewrite (digit_not_space _ H). simpl.
  destruct (Ascii.eqb_spec c "."); [subst; discriminate | reflexivity].
Qed.

Lemma word_char_not_space (c : ascii) :
  is_word_char c = true -> Py.is_space c = false.
Proof.
  unfold is_word_char. intros H. apply andb_true_iff in H as [H _].
  now apply negb_true_iff in H.
Qed.

Lemma lstrip_word (c : ascii) (s : string) :
  Py.is_space c = false -> Py.lstrip (String c s) = String c s.
Proof. intros H. simpl. now rewrite H. Qed.

Lemma rstrip_words (s : string) :
  Py.all is_word_char s = true -> Py.rstrip s = s.
Proof.
  induction s as [|c s IH]; simpl; [reflexivity|].
  intros H. apply andb_true_iff in H as [H1 H2].
  rewrite (IH H2), (word_char_not_space _ H1). now destruct s.
Qed.


Lemma strip_words (s : string) :
  Py.all is_word_char s = true -> Py.strip s = s.
Proof.
  intros H. unfold Py.strip. destruct s as [|c s]; [reflexivity|].
  rewrite lstrip_word.
  - now apply rstrip_words.
  - simpl in H. apply andb_true_iff in H as [H _].
    now apply word_char_not_space.
Qed.




Lemma replace_app_char (a : ascii) (new s t : string) :
  Py.replace (String a "") new (s ++ t)
  = Py.replace (String a "") new s ++ Py.replace (String a "") new t.
Proof. rewrite !replace_char. apply subst_chars_app. Qed.

(** ** Decimal text *)

Lemma int_digits_all (s : string) (acc : Z) (b : bool) :
  Py.all Py.is_digit s = true -> s <> "" \/ b = true ->
  Py.int_digits acc b s = Some (Py.number 10 Py.digit_val acc s).
Proof.
  revert acc b. induction s as [|c s IH]; intros acc b H Hb; simpl.
  - destruct Hb as [Hb | ->]; [contradiction | reflexivity].
  - simpl in H. apply andb_true_iff in H as [H1 H2].
    rewrite H1. apply IH; auto.
Qed.

Lemma digit_not_sign (c : ascii) :
  Py.is_digit c = true -> (c =? "+")%char = false /\ (c =? "-")%char = false.
Proof.
  intros H. split.
  - destruct (Ascii.eqb_spec c "+"); [subst; discriminate | reflexivity].
  - destruct (Ascii.eqb_spec c "-"); [subst; discriminate | reflexivity].
Qed.

(** [int] reads a run of digits as its decimal value. *)
Lemma int_digits_value (s : string) :
  s <> "" -> Py.all Py.is_digit s = true -> Py.int s = Ok (dec_val s).
Proof.
  intros Hne H. unfold Py.int.
  rewrite strip_words by (eapply all_impl; [apply digit_is_word_char | exact H]).
  destruct s as [|c r]; [contradiction|].
  assert (Hc : Py.is_digit c = true)
    by (simpl in H; now apply andb_true_iff in H as [H1 _]).
  destruct (digit_not_sign _ Hc) as [-> ->].
  rewrite int_digits_all; auto; left; discriminate.
Qed.

(** ** Timestamps *)

Lemma weekday_range (dt : datetime) : 0 <= weekday dt < 7.
Proof. unfold weekday. apply Z.mod_pos_bound. lia. Qed.

Lemma format_rfc822_lookups (dt : datetime) :
  valid_datetime dt = true ->
  (Z.to_nat (weekday dt) < 7)%nat
  /\ 0 <= month dt - 1 /\ (Z.to_nat (month dt - 1) < 12)%nat.
Proof.
  intros V. pose proof (weekday_range dt).
  unfold valid_datetime, valid_date, between in V.
  repeat (apply andb_true_iff in V as [V ?]). lia.
Qed.

(** The timestamps of the fallback list are what the constructor builds
    from the literals of the source. *)
Lemma hardcoded_dates :
  Forall (fun ep =>
            datetime_new (year (date ep)) (month (date ep)) (day (date ep))
              12 0 0 = Ok (date ep)
            /\ valid_datetime (date ep) = true)
    hardcoded_episodes.
Proof. repeat constructor. Qed.

(** ** Date parsing *)





Lemma days_in_month_le (y m : Z) : days_in_month y m <= 31.
Proof.
  unfold days_in_month. destruct ((m =? 2) && is_leap y); [lia|].
  generalize (Z.to_nat (m - 1)) as n. intros n.
  do 12 (destruct n as [|n]; [simpl; lia|]). destruct n; simpl; lia.
Qed.


(** Fewer or more than three tokens: the clock reading is returned. *)
Lemma parse_pt_date_not_three (now : datetime) (date_str : string) :
  List.length (Py.split (cleaned date_str)) <> 3%nat ->
  parse_pt_date now date_str = Ok now.
Proof.
  unfold parse_pt_date, cleaned.
  destruct (Py.split _) as [|p0 [|p1 [|p2 [|p3 l]]]]; simpl; intros H;
    try reflexivity.
  contradiction.
Qed.





(** The date of the description's example. *)
Lemma parse_pt_date_example (now : datetime) :
  parse_pt_date now "11 fev. 2026" = Ok (mkdt 2026 2 11 12 0 0 0).
Proof. reflexivity. Qed.


(** ** Searching with the two patterns *)

Lemma prefix_split (p s : string) :
  prefix p s = true <-> exists rest, s = p ++ rest.
Proof.
  revert s. induction p as [|a p IH]; intros s.
  - rewrite prefix_nil. split; [intros _; now exists s | reflexivity].
  - destruct s as [|b s]; [split; [discriminate | intros [r Hr]; discriminate]|].
    rewrite prefix_cons, andb_true_iff, Ascii.eqb_eq, IH. split.
    + intros [-> [r ->]]. now exists r.
    + intros [r Hr]. injection Hr as -> ->. split; [reflexivity | now exists r].
Qed.

Lemma drop_app (p s : string) : Py.drop (String.length p) (p ++ s) = s.
Proof. induction p as [|a p IH]; simpl; [now destruct s | exact IH]. Qed.

Lemma span_split (p : ascii -> bool) (s : string) :
  s = fst (Py.span p s) ++ snd (Py.span p s)
  /\ Py.all p (fst (Py.span p s)) = true.
Proof.
  induction s as [|c s [IH1 IH2]]; simpl; [now split|].
  destruct (p c) eqn:E; [|now split].
  destruct (Py.span p s) as [a b]. simpl in *.
  rewrite E, IH2. split; [now rewrite <- IH1 | reflexivity].
Qed.

(** The longest prefix in the class is the whole of [a] when what follows
    [a] does not start in the class. *)
Lemma span_app (p : ascii -> bool) (a b : string) :
  Py.all p a = true ->
  match b with String c _ => p c = false | "" => True end ->
  Py.span p (a ++ b) = (a, b).
Proof.
  intros Ha Hb. induction a as [|c a IH]; simpl.
  - destruct b as [|c b]; simpl; [reflexivity | now rewrite Hb].
  - simpl in Ha. apply andb_true_iff in Ha as [H1 H2].
    now rewrite H1, (IH H2).
Qed.

(** A greedy repetition never succeeds by giving characters back when the
    rest of the pattern cannot start with a character of the class. *)
Lemma star_greedy {R : Type} (cls : ascii -> bool)
  (k : string -> string -> option R) (s : string) :
  (forall m c r, cls c = true -> k m (String c r) = None) ->
  Re.star cls k s = k (fst (Py.span cls s)) (snd (Py.span cls s)).
Proof.
  revert k. induction s as [|c s IH]; intros k Hk; simpl; [reflexivity|].
  destruct (cls c) eqn:E; [|reflexivity].
  rewrite IH by (intros; now apply Hk).
  destruct (Py.span cls s) as [a b]. simpl.
  destruct (k (String c a) b) eqn:K; [reflexivity|].
  now apply Hk.
Qed.

Lemma plus_greedy {R : Type} (cls : ascii -> bool)
  (k : string -> string -> option R) (s : string) :
  (forall m c r, cls c = true -> k m (String c r) = None) ->
  Re.plus cls k s
  = match fst (Py.span cls s) with
    | "" => None
    | g => k g (snd (Py.span cls s))
    end.
Proof.
  intros Hk. destruct s as [|c s]; simpl; [reflexivity|].
  destruct (cls c) eqn:E; [|reflexivity].
  rewrite star_greedy by (intros; now apply Hk).
  now destruct (Py.span cls s) as [a b].
Qed.

Lemma search_some {R : Type} (pat : string -> option R) (s : string) (g : R) :
  Re.search pat s = Some g ->
  exists pre rest,
    s = pre ++ rest /\ pat rest = Some g
    /\ forall pre' rest',
         s = pre' ++ rest' ->
         (String.length pre' < String.length pre)%nat -> pat rest' = None.
Proof.
  induction s as [|c s IH]; simpl.
  - destruct (pat "") eqn:E; [|discriminate].
    intros [= ->]. exists "", "". repeat split; auto.
    intros pre' rest' _ H. simpl in H. lia.
  - destruct (pat (String c s)) eqn:E.
    + intros [= ->]. exists "", (String c s). repeat split; auto.
      intros pre' rest' _ H. simpl in H. lia.
    + intros H. destruct (IH H) as (pre & rest & -> & Hp & Hmin).
      exists (String c pre), rest. repeat split; auto.
      intros [|c' pre'] rest' Hs Hl; simpl in Hs.
      * now subst rest'.
      * injection Hs as -> Hs. apply (Hmin pre' rest' Hs). simpl in Hl. lia.
Qed.


(** ** Duration parsing *)







(** ** Decimal text of integers *)

Lemma uint_digits (d : Decimal.uint) :
  Py.all Py.is_digit (DecimalString.NilEmpty.string_of_uint d) = true.
Proof. induction d; simpl; auto. Qed.

Lemma number_uint_acc (d : Decimal.uint) (p : positive) :
  Py.number 10 Py.digit_val (Z.pos p) (DecimalString.NilEmpty.string_of_uint d)
  = Z.pos (Pos.of_uint_acc d p).
Proof.
  revert p. induction d; intros p; cbn [DecimalString.NilEmpty.string_of_uint Py.number
    Pos.of_uint_acc]; [reflexivity | rewrite <- IHd; f_equal ..].
  all: rewrite ?Pos2Z.inj_add, ?Pos2Z.inj_mul.
  all: match goal with |- context [Py.digit_val ?c] =>
         let v := eval vm_compute in (Py.digit_val c) in
         change (Py.digit_val c) with v end.
  all: lia.
Qed.

Lemma number_uint (d : Decimal.uint) :
  dec_val (DecimalString.NilEmpty.string_of_uint d) = Z.of_N (Pos.of_uint d).
Proof.
  unfold dec_val.
  induction d; cbn [DecimalString.NilEmpty.string_of_uint Py.number Pos.of_uint];
    [reflexivity | exact IHd | ..].
  all: match goal with |- context [Py.digit_val ?c] =>
         let v := eval vm_compute in (10 * 0 + Py.digit_val c) in
         change (10 * 0 + Py.digit_val c) with v end.
  all: apply number_uint_acc.
Qed.

Lemma str_pos (p : positive) :
  Py.str (Z.pos p) = DecimalString.NilEmpty.string_of_uint (Pos.to_uint p).
Proof.
  unfold Py.str. cbn [Z.to_int DecimalString.NilZero.string_of_int].
  unfold DecimalString.NilZero.string_of_uint.
  pose proof (DecimalPos.Unsigned.to_uint_nonnil p).
  now destruct (Pos.to_uint p).
Qed.

Lemma uint_nonempty (d : Decimal.uint) :
  d <> Decimal.Nil -> DecimalString.NilEmpty.string_of_uint d <> "".
Proof. destruct d; simpl; congruence. Qed.

(** The text of a non-negative integer is a run of digits of that value. *)
Lemma str_digits (n : Z) :
  0 <= n ->
  Py.str n <> "" /\ Py.all Py.is_digit (Py.str n) = true
  /\ dec_val (Py.str n) = n.
Proof.
  intros H. destruct n as [|p|p]; [now vm_compute | | lia].
  rewrite str_pos. split; [|split].
  - apply uint_nonempty, DecimalPos.Unsigned.to_uint_nonnil.
  - apply uint_digits.
  - now rewrite number_uint, DecimalPos.Unsigned.of_to.
Qed.

(** [int] reads back what [str] writes. *)
Lemma int_str (n : Z) : Py.int (Py.str n) = Ok n.
Proof.
  destruct (Z.le_gt_cases 0 n) as [H|H].
  - destruct (str_digits n H) as (H1 & H2 & H3).
    now rewrite int_digits_value, H3.
  - destruct n as [|p|p]; try lia.
    destruct (str_digits (Z.pos p)) as (H1 & H2 & H3); [lia|].
    rewrite str_pos in H1, H2, H3.
    unfold Py.str. cbn [Z.to_int DecimalString.NilZero.string_of_int].
    replace (DecimalString.NilZero.string_of_uint (Pos.to_uint p))
      with (DecimalString.NilEmpty.string_of_uint (Pos.to_uint p))
      by (symmetry; apply str_pos).
    unfold Py.int.
    rewrite strip_words.
    + cbn [Ascii.eqb Bool.eqb]. cbn.
      rewrite int_digits_all by (auto; left; exact H1).
      fold (dec_val (DecimalString.NilEmpty.string_of_uint (Pos.to_uint p))).
      now rewrite H3.
    + cbn [Py.all]. apply andb_true_iff. split; [reflexivity|].
      eapply all_impl; [apply digit_is_word_char | exact H2].
Qed.

Lemma fmt_02d_two_digits (n : Z) :
  0 <= n < 100 -> Py.fmt_02d n = two_digits n.
Proof.
  intros H.
  assert (A : forallb (fun k => (Py.fmt_02d (Z.of_nat k)
                                 =? two_digits (Z.of_nat k))%string)
                (seq 0 100) = true) by (vm_compute; reflexivity).
  rewrite forallb_forall in A.
  specialize (A (Z.to_nat n)). rewrite Z2Nat.id in A by lia.
  apply String.eqb_eq, A, in_seq. lia.
Qed.


(** ** The renderer's lines *)

Lemma append_item_lines (lines : list string) (ep : episode) :
  append_item lines ep = (lines ++ item_lines ep)%list.
Proof.
  unfold item_lines, append_item, Py.append.
  destruct (audio_url ep) as [u|]; [destruct (truthy u)|];
    destruct (duration ep >? 0);
    repeat rewrite <- app_assoc; reflexivity.
Qed.

Lemma fold_append_item (episodes : list episode) (lines : list string) :
  fold_left append_item episodes lines
  = (lines ++ flat_map item_lines episodes)%list.
Proof.
  revert lines. induction episodes as [|ep eps IH]; intros lines; simpl.
  - now rewrite app_nil_r.
  - now rewrite IH, append_item_lines, app_assoc.
Qed.

(** The document is the channel head, one block of lines per record in the
    order of the list, and the two closing lines. *)
Lemma rss_lines_blocks (now : datetime) (episodes : list episode) :
  rss_lines now episodes
  = app (channel_lines now)
      (app (flat_map item_lines episodes) ["  </channel>"; "</rss>"]).
Proof.
  unfold rss_lines, Py.append.
  now rewrite fold_append_item, <- !app_assoc.
Qed.

(** The lines of one item, in order. *)
Lemma item_lines_shape (ep : episode) :
  item_lines ep
  = app
      ["    <item>";
       "      <title>" ++ xml_escape (title ep) ++ "</title>";
       link_line ep;
       guid_line ep;
       "      <pubDate>" ++ format_rfc822 (date ep) ++ "</pubDate>";
       "      <description>" ++ xml_escape (title ep) ++ " - "
         ++ xml_escape PROGRAM_TITLE ++ " com " ++ xml_escape PROGRAM_AUTHOR
         ++ " na " ++ CHANNEL ++ ".</description>"]
      (app
         match audio_url ep with
         | Some u => if truthy u then [enclosure_line u] else []
         | None => []
         end
         (app
            (if duration ep >? 0 then [duration_line (duration ep)] else [])
            ["      <itunes:author>" ++ xml_escape PROGRAM_AUTHOR
               ++ "</itunes:author>";
             "      <itunes:summary>" ++ xml_escape (title ep)
               ++ " - Panfletos: m" ++ u_acute ++ "sica-pol" ++ i_acute
               ++ "tica, can" ++ c_cedil ++ o_tilde
               ++ "es-poder, criatividade-resist" ++ e_circ
               ++ "ncia.</itunes:summary>";
             "    </item>"])).
Proof.
  unfold item_lines, append_item, Py.append.
  destruct (audio_url ep) as [u|]; [destruct (truthy u)|];
    destruct (duration ep >? 0); reflexivity.
Qed.


Lemma prefix_app_true (p a x : string) :
  prefix p a = true -> prefix p (a ++ x) = true.
Proof.
  intros H. apply prefix_split in H as [r ->].
  apply prefix_split. exists (r ++ x). apply append_assoc.
Qed.

Lemma prefix_clash (p a x : string) :
  clash p a = true -> prefix p (a ++ x) = false.
Proof.
  revert a. induction p as [|c p IH]; intros [|d a]; simpl clash;
    try discriminate.
  intros H. change (String d a ++ x) with (String d (a ++ x)).
  rewrite prefix_cons.
  destruct (c =? d)%char; [|reflexivity].
  simpl in H. now rewrite IH.
Qed.

(** Decide whether a line starts with a fixed text from the fixed text the
    line itself starts with. *)
Ltac decide_prefix :=
  repeat match goal with
    | |- context [prefix ?p (?a ++ ?x)] =>
        first [ rewrite (prefix_app_true p a x) by (vm_compute; reflexivity)
              | rewrite (prefix_clash p a x) by (vm_compute; reflexivity) ]
    | |- context [prefix ?p ?a] =>
        let v := eval vm_compute in (prefix p a) in
        change (prefix p a) with v
    end.

(** Filtering the lines of an item by a fixed opening. *)
Ltac filter_item ep :=
  rewrite (item_lines_shape ep), !filter_app;
  unfold is_enclosure, is_duration, is_guid, is_item_open,
    link_line, guid_line;
  cbn [filter]; decide_prefix;
  destruct (audio_url ep) as [?u|]; [destruct (truthy _)|];
  destruct (duration ep >? 0);
  unfold enclosure_line, duration_line;
  cbn [filter]; decide_prefix; reflexivity.

Lemma filter_enclosure (ep : episode) :
  filter is_enclosure (item_lines ep)
  = match audio_url ep with
    | Some u => if truthy u then [enclosure_line u] else []
    | None => []
    end.
Proof. filter_item ep. Qed.












(** The empty string is no URL: the renderer treats it as no audio. *)
Lemma enclosure_empty_string (ep : episode) :
  audio_url ep = Some "" -> filter is_enclosure (item_lines ep) = [].
Proof. intros H. now rewrite filter_enclosure, H. Qed.

(** ** Duration formatting *)



(** ** Verbatim addresses *)



(** ** Counting occurrences in the document *)

Lemma clash_not_prefix (p a : string) : clash p a = true -> prefix p a = false.
Proof.
  intros H. rewrite <- (append_nil_r a). now apply prefix_clash.
Qed.

Lemma count_sub_app (p a s : string) :
  no_overlap p a = true ->
  count_sub p (a ++ s) = (count_sub p a + count_sub p s)%nat.
Proof.
  induction a as [|c a IH]; intros H; [reflexivity|].
  cbn [no_overlap] in H. apply andb_true_iff in H as [H1 H2].
  change (String c a ++ s) with (String c (a ++ s)). cbn [count_sub].
  rewrite (IH H2), Nat.add_assoc. f_equal. f_equal.
  change (String c (a ++ s)) with (String c a ++ s).
  apply orb_true_iff in H1 as [H1|H1].
  - now rewrite (prefix_clash _ _ _ H1), (clash_not_prefix _ _ H1).
  - now rewrite (prefix_app_true _ _ _ H1), H1.
Qed.

Lemma count_sub_skip (p x s : string) :
  no_lt x = true ->
  count_sub (String "<" p) (x ++ s) = count_sub (String "<" p) s.
Proof.
  induction x as [|c x IH]; intros H; [reflexivity|].
  cbn [no_lt Py.all] in H. apply andb_true_iff in H as [H1 H2].
  change (String c x ++ s) with (String c (x ++ s)). cbn [count_sub].
  rewrite prefix_cons, Ascii.eqb_sym.
  apply negb_true_iff in H1. rewrite H1. now apply IH.
Qed.

Lemma prefix_before_sep (sep : ascii) (p x rest : string) :
  Py.all (fun c => negb (c =? sep)%char) p = true ->
  p <> "" ->
  prefix p (x ++ String sep rest) = prefix p x.
Proof.
  revert x. induction p as [|c p IH]; intros x H Hp; [contradiction|].
  cbn [Py.all] in H. apply andb_true_iff in H as [H1 H2].
  apply negb_true_iff in H1.
  destruct x as [|d x]; cbn [append].
  - rewrite prefix_cons, H1. reflexivity.
  - rewrite !prefix_cons. destruct p as [|c' p'].
    + now rewrite !prefix_nil.
    + rewrite IH; [reflexivity | exact H2 | discriminate].
Qed.

Lemma count_sub_sep (sep : ascii) (p x rest : string) :
  Py.all (fun c => negb (c =? sep)%char) p = true ->
  p <> "" ->
  count_sub p (x ++ String sep rest)
  = (count_sub p x + count_sub p rest)%nat.
Proof.
  intros H Hp. induction x as [|d x IH].
  - pose proof (prefix_before_sep sep p "" rest H Hp) as E.
    cbn [append] in E. cbn [append count_sub]. rewrite E.
    destruct p; [contradiction | reflexivity].
  - change (String d x ++ String sep rest)
      with (String d (x ++ String sep rest)).
    cbn [count_sub]. rewrite IH, Nat.add_assoc. f_equal. f_equal.
    change (String d (x ++ String sep rest))
      with (String d x ++ String sep rest).
    now rewrite prefix_before_sep.
Qed.

(** Occurrences in the joined document are occurrences in its lines, for a
    text without a line break. *)
Lemma count_sub_join (p : string) (lines : list string) :
  Py.all (fun c => negb (c =? ascii_of_nat 10)%char) p = true ->
  p <> "" ->
  count_sub p (Py.join (Py.chr 10) lines)
  = list_sum (map (count_sub p) lines).
Proof.
  intros H Hp. unfold Py.join, Py.chr.
  induction lines as [|x [|y l] IH].
  - reflexivity.
  - simpl. now rewrite Nat.add_0_r.
  - change (String.concat (String (ascii_of_nat 10) "") (x :: y :: l))
      with (x ++ String (ascii_of_nat 10)
                   (String.concat (String (ascii_of_nat 10) "") (y :: l))).
    rewrite count_sub_sep by assumption.
    rewrite IH. reflexivity.
Qed.

Lemma list_sum_flat_map {A : Type} (f : string -> nat)
  (g : A -> list string) (l : list A) :
  list_sum (map f (flat_map g l))
  = list_sum (map (fun x => list_sum (map f (g x))) l).
Proof.
  induction l as [|x l IH]; simpl; [reflexivity|].
  now rewrite map_app, list_sum_app, IH.
Qed.

Lemma list_sum_ones {A : Type} (f : A -> nat) (l : list A) :
  Forall (fun x => f x = 1%nat) l -> list_sum (map f l) = List.length l.
Proof.
  induction 1 as [|x l Hx _ IH]; simpl; [reflexivity|].
  now rewrite Hx, IH.
Qed.

(** *** Texts that open no tag *)

Lemma no_lt_app (a b : string) :
  no_lt a = true -> no_lt b = true -> no_lt (a ++ b) = true.
Proof. intros Ha Hb. unfold no_lt in *. now rewrite all_app, Ha, Hb. Qed.

Lemma all_subst_chars (p : ascii -> bool) (f : ascii -> string) (s : string) :
  (forall c, Py.all p (f c) = true) -> Py.all p (subst_chars f s) = true.
Proof.
  intros H. induction s as [|c s IH]; simpl; [reflexivity|].
  now rewrite all_app, H, IH.
Qed.

Lemma no_lt_xml_escape (s : string) : no_lt (xml_escape s) = true.
Proof.
  rewrite xml_escape_subst. apply all_subst_chars.
  intros c. destruct c as [[] [] [] [] [] [] [] []]; reflexivity.
Qed.

Lemma no_lt_digits (s : string) :
  Py.all Py.is_digit s = true -> no_lt s = true.
Proof.
  apply all_impl. intros c.
  destruct c as [[] [] [] [] [] [] [] []]; vm_compute; congruence.
Qed.

Lemma no_lt_str (n : Z) : no_lt (Py.str n) = true.
Proof.
  destruct n as [|p|p]; [reflexivity | |].
  - rewrite str_pos. apply no_lt_digits, uint_digits.
  - unfold Py.str. cbn [Z.to_int DecimalString.NilZero.string_of_int].
    replace (DecimalString.NilZero.string_of_uint (Pos.to_uint p))
      with (Py.str (Z.pos p)) by reflexivity.
    rewrite str_pos. cbn [no_lt Py.all]. apply andb_true_iff.
    split; [reflexivity | apply no_lt_digits, uint_digits].
Qed.

Lemma no_lt_fmt_02d (n : Z) : no_lt (Py.fmt_02d n) = true.
Proof.
  unfold Py.fmt_02d. destruct ((0 <=? n) && (n <? 10)).
  - apply no_lt_app; [reflexivity | apply no_lt_str].
  - apply no_lt_str.
Qed.

Lemma no_lt_nth (n : nat) (l : list string) :
  forallb no_lt l = true -> no_lt (nth n l "") = true.
Proof.
  revert n. induction l as [|x l IH]; intros n H; [now destruct n|].
  cbn [forallb] in H. apply andb_true_iff in H as [H1 H2].
  destruct n; [exact H1 | now apply IH].
Qed.

Lemma no_lt_format_rfc822 (dt : datetime) : no_lt (format_rfc822 dt) = true.
Proof.
  unfold format_rfc822. cbv zeta.
  repeat first [ apply no_lt_app
               | apply no_lt_fmt_02d
               | apply no_lt_str
               | apply no_lt_nth; reflexivity
               | reflexivity ].
Qed.

Lemma no_lt_format_itunes_duration (n : Z) :
  no_lt (format_itunes_duration n) = true.
Proof.
  unfold format_itunes_duration. cbv zeta.
  destruct (n / 3600 >? 0);
    repeat first [ apply no_lt_app | apply no_lt_fmt_02d | reflexivity ].
Qed.

Create HintDb no_lt.

#[local] Hint Resolve no_lt_xml_escape no_lt_format_rfc822
  no_lt_format_itunes_duration : no_lt.

(** Count the occurrences of a tag in a line built from fixed texts and
    texts that open no tag. *)
Ltac count_tag :=
  repeat first
    [ rewrite count_sub_skip by (auto with no_lt)
    | rewrite count_sub_app by (vm_compute; reflexivity) ];
  vm_compute; reflexivity.

Ltac count_lines :=
  repeat match goal with
    | |- context [count_sub ?p ?l] =>
        let H := fresh in
        first [ assert (H : count_sub p l = 0%nat) by count_tag
              | assert (H : count_sub p l = 1%nat) by count_tag ];
        rewrite H; clear H
    end.

Lemma count_item_channel (now : datetime) :
  list_sum (map (count_sub "<item>") (channel_lines now)) = 0%nat.
Proof.
  unfold channel_lines. cbv zeta. cbn [map list_sum fold_right].
  count_lines. reflexivity.
Qed.

Lemma count_item_block (ep : episode) :
  plain_addresses ep = true ->
  list_sum (map (count_sub "<item>") (item_lines ep)) = 1%nat.
Proof.
  intros H. apply andb_true_iff in H as [Hu Hi].
  rewrite item_lines_shape, !map_app, !list_sum_app.
  unfold link_line, guid_line.
  destruct (audio_url ep) as [u|]; [destruct (truthy u)|];
    destruct (duration ep >? 0);
    unfold enclosure_line, duration_line;
    cbn [map list_sum fold_right]; count_lines; reflexivity.
Qed.

(** The opening tag of an item occurs in the text of the document once per
    record, when no address or identifier opens a tag of its own. *)
Lemma count_item_document (now : datetime) (episodes : list episode) :
  forallb plain_addresses episodes = true ->
  count_sub "<item>" (generate_rss now episodes) = List.length episodes.
Proof.
  intros H. unfold generate_rss.
  rewrite count_sub_join by (reflexivity || discriminate).
  rewrite rss_lines_blocks, !map_app, !list_sum_app, count_item_channel.
  rewrite list_sum_flat_map, list_sum_ones.
  - cbn. lia.
  - rewrite forallb_forall in H. apply Forall_forall.
    intros ep Hep. now apply count_item_block, H.
Qed.

(** ** Items in order *)


(** ** Episode identifiers *)

Lemma link_ids_find_all (anchors : list anchor) :
  link_ids (find_all anchors) = link_ids anchors.
Proof.
  unfold link_ids, find_all, link_id.
  induction anchors as [|link l IH]; [reflexivity|].
  cbn [filter flat_map].
  destruct (href link) as [h|] eqn:E'.
  - destruct (Re.search ep_pattern h) as [id|] eqn:E; [|exact IH].
    cbn [flat_map]. now rewrite E', E, IH.
  - change (Re.search ep_pattern "") with (@None string). exact IH.
Qed.

(** The loop adds one record per link that matches, with the digits of the
    link as identifier. *)
Lemma scrape_loop_ids (now : datetime) (links : list anchor)
  (episodes result : list episode) :
  scrape_loop now links episodes = Ok result ->
  map episode_id result = app (map episode_id episodes) (link_ids links).
Proof.
  revert episodes. induction links as [|link l IH]; intros episodes.
  - cbn. intros [= <-]. now rewrite app_nil_r.
  - cbn [scrape_loop]. unfold link_ids. cbn [flat_map]. unfold link_id at 1.
    destruct (Re.search ep_pattern _) as [id|].
    + destruct (if truthy _ then parse_pt_date now _ else Ok now)
        as [d|e]; [|discriminate].
      destruct (if truthy _ then parse_duration _ else Ok 0)
        as [n|e]; [|discriminate].
      cbn [bind]. intros H. apply IH in H. rewrite H.
      unfold Py.append. rewrite map_app, <- app_assoc. reflexivity.
    + apply IH.
Qed.

(** [ep_pattern] without backtracking: the literal, the longest run of
    digits, the literal. *)
Lemma ep_pattern_sound (s id : string) :
  ep_pattern s = Some id -> episode_at s id.
Proof.
  unfold ep_pattern, Re.lit.
  destruct (prefix _ s) eqn:P; [|discriminate].
  apply prefix_split in P as [r ->]. rewrite drop_app.
  rewrite plus_greedy.
  - destruct (span_split Py.is_digit r) as [S1 D1].
    destruct (fst (Py.span Py.is_digit r)) as [|c g] eqn:G; [discriminate|].
    destruct (prefix _ (snd (Py.span Py.is_digit r))) eqn:P; [|discriminate].
    intros [= <-]. apply prefix_split in P as [rest P].
    exists rest. repeat split; auto; [|discriminate].
    rewrite S1, P. unfold PROGRAM_ID, PROGRAM_SLUG. reflexivity.
  - intros m c x Hc. unfold PROGRAM_SLUG. cbn [append].
    rewrite prefix_cons.
    destruct (Ascii.eqb_spec "/" c) as [<-|_]; [discriminate | reflexivity].
Qed.

Lemma link_ids_digits (anchors : list anchor) :
  Forall (fun id => id <> "" /\ Py.all Py.is_digit id = true)
    (link_ids anchors).
Proof.
  unfold link_ids. induction anchors as [|link l IH]; [constructor|].
  cbn [flat_map]. destruct (link_id link) as [id|] eqn:E; [|exact IH].
  constructor; [|exact IH].
  unfold link_id in E. apply search_some in E as (pre & rest & _ & E & _).
  apply ep_pattern_sound in E as (r & _ & H1 & H2). now split.
Qed.

(** C4 (amended). The identifiers of the fallback list are pairwise
    distinct.  The extractor yields one record per matching link, in
    document order, with the digits of the link as identifier; so its
    identifiers are pairwise distinct exactly when those of the matching
    links are. *)
Theorem episode_ids_of_links (soup_anchors : string -> list anchor)
  (now : datetime) (html_content : string) (episodes : list episode) :
  scrape_episodes_from_html soup_anchors now html_content = Ok episodes ->
  map episode_id episodes = link_ids (soup_anchors html_content)
  /\ Forall (fun id => id <> "" /\ Py.all Py.is_digit id = true)
       (map episode_id episodes)
  /\ (NoDup (map episode_id episodes)
      <-> NoDup (link_ids (soup_anchors html_content)))
  /\ NoDup (map episode_id hardcoded_episodes).
Proof.
  unfold scrape_episodes_from_html, scrape_episodes_from_soup.
  intros H. apply scrape_loop_ids in H. rewrite link_ids_find_all in H.
  cbn [map app] in H. rewrite H.
  split; [reflexivity|]. split; [apply link_ids_digits|]. split; [tauto|].
  repeat constructor; cbn; intuition discriminate.
Qed.

Lemma episode_ids_of_links_witness :
  map episode_id [query_episode] = link_ids [query_link].
Proof.
  apply (episode_ids_of_links (fun _ => [query_link]) sample_now ""
           [query_episode]).
  reflexivity.
Defined.

(** C4 as first stated fails: a page that links one episode twice yields
    two records with the same identifier. *)
Lemma scrape_repeats_episode_id :
  exists episodes,
    scrape_episodes_from_html read_twice_linked sample_now twice_linked_page
    = Ok episodes
    /\ map episode_id episodes = ["908229"; "908229"]
    /\ ~ NoDup (map episode_id episodes).
Proof.
  eexists. split; [reflexivity|]. split; [reflexivity|].
  cbn. intros H. inversion H as [|x l Hx _]. apply Hx. now left.
Qed.

(** ** Malformed dates *)

(** C1 (the code departs from it). A date fragment of three tokens that is
    no date makes [parse_pt_date] raise, and the extractor with it: neither
    falls back to the clock reading. *)
Theorem parse_pt_date_raises (now : datetime) :
  parse_pt_date now "data por anunciar" = Raise ValueError
  /\ parse_pt_date now "31 fev. 2026" = Raise ValueError
  /\ scrape_episodes_from_soup now [undated_link] = Raise ValueError.
Proof. repeat split. Qed.

(** What does hold of C1: without exactly three tokens the result is the
    clock reading, and a link without a date fragment gets it too. *)
Lemma parse_pt_date_examples (now : datetime) :
  parse_pt_date now "" = Ok now
  /\ parse_pt_date now "2026" = Ok now
  /\ parse_pt_date now "11 de fev. de 2026" = Ok now.
Proof. repeat split. Qed.

Lemma scrape_missing_date (now : datetime) :
  scrape_episodes_from_soup now
    [mkanchor (Some "/play/p8339/e908229/panfletos") ["Um panfleto"]]
  = Ok [mkep "Um panfleto" now 0
          "https://www.rtp.pt/play/p8339/e908229/panfletos" "908229" None].
Proof. reflexivity. Qed.

(** ** Well-formed output

    The renderer's document is followed through the recogniser construct by
    construct: fixed tags and fixed text by computation, escaped text and
    plain text by induction. *)

Lemma accepts_nil : accepts [] "".
Proof. intros [|f] H; [simpl in H; lia | reflexivity]. Qed.

Lemma accepts_char (top : string) (below : list string) (c : ascii) (r : string) :
  Xml.is_char c = true -> (c =? "<")%char = false -> (c =? "&")%char = false ->
  prefix "]]>" (String c r) = false ->
  accepts (top :: below) r -> accepts (top :: below) (String c r).
Proof.
  intros H1 H2 H3 H4 G [|f] Hf; [simpl in Hf; lia|].
  cbn [Xml.content]. rewrite H2, H3, H1, H4. cbn [negb andb].
  apply G. simpl in Hf. lia.
Qed.

(** Replace [a] by [b] in the goal, the two being equal by computation. *)
Ltac compute_to a b :=
  let E := fresh "E" in
  assert (E : a = b) by reflexivity; rewrite E; clear E.

Lemma content_tag (f : nat) (top : string) (below : list string) (r : string) :
  prefix "!--" r = false -> prefix "?" r = false ->
  prefix "![CDATA[" r = false -> prefix "/" r = false ->
  Xml.content (S f) (top :: below) (String "<" r)
  = match Xml.open_tag f r with
    | Some (n, false, r') => Xml.content f (n :: top :: below) r'
    | Some (_, true, r') => Xml.content f (top :: below) r'
    | None => false
    end.
Proof. intros H1 H2 H3 H4. cbn [Xml.content]. now rewrite H1, H2, H3, H4. Qed.

(** A start tag, an empty-element tag and an end tag; [t] is the text of
    the tag after its [<]. *)
Lemma accepts_open (top : string) (below : list string) (t n r s : string) :
  s = t ++ r ->
  prefix "!--" s = false -> prefix "?" s = false ->
  prefix "![CDATA[" s = false -> prefix "/" s = false ->
  (forall g, Xml.open_tag (String.length t + g) s = Some (n, false, r)) ->
  accepts (n :: top :: below) r -> accepts (top :: below) (String "<" s).
Proof.
  intros -> H1 H2 H3 H4 E G [|f] Hf; [simpl in Hf; lia|].
  rewrite content_tag by assumption.
  cbn [String.length] in Hf. rewrite length_append in Hf.
  replace f with (String.length t + (f - String.length t))%nat by lia.
  rewrite E. apply G. lia.
Qed.

Lemma accepts_empty (top : string) (below : list string) (t n r s : string) :
  s = t ++ r ->
  prefix "!--" s = false -> prefix "?" s = false ->
  prefix "![CDATA[" s = false -> prefix "/" s = false ->
  (forall g, Xml.open_tag (String.length t + g) s = Some (n, true, r)) ->
  accepts (top :: below) r -> accepts (top :: below) (String "<" s).
Proof.
  intros -> H1 H2 H3 H4 E G [|f] Hf; [simpl in Hf; lia|].
  rewrite content_tag by assumption.
  cbn [String.length] in Hf. rewrite length_append in Hf.
  replace f with (String.length t + (f - String.length t))%nat by lia.
  rewrite E. apply G. lia.
Qed.

Lemma accepts_close (top : string) (below : list string) (t r s : string) :
  s = t ++ String ">" r ->
  Xml.read_name s = Some (top, String ">" r) ->
  accepts below r ->
  accepts (top :: below) (String "<" (String "/" s)).
Proof.
  intros -> E G [|f] Hf; [simpl in Hf; lia|].
  cbn [Xml.content]. change ("<" =? "<")%char with true. cbv iota.
  rewrite (prefix_cons "!" "/"), (prefix_cons "?" "/"), (prefix_cons "!" "/"),
    (prefix_cons "/" "/"), prefix_nil.
  change ("!" =? "/")%char with false. change ("?" =? "/")%char with false.
  change ("/" =? "/")%char with true.
  cbv iota. cbn [andb Py.drop]. rewrite E.
  change (Xml.skip_s (String ">" r)) with (String ">" r). cbv iota.
  rewrite String.eqb_refl. cbn [andb].
  apply G. cbn [String.length] in Hf. rewrite length_append in Hf.
  cbn [String.length] in Hf. lia.
Qed.

(** *** Plain and escaped text *)

Lemma head_escaped_not_gt (t r : string) :
  prefix ">" r = false -> prefix ">" (subst_chars escape_char t ++ r) = false.
Proof.
  intros H. destruct t as [|c t]; [exact H|].
  cbn [subst_chars]. rewrite append_assoc.
  destruct c as [[] [] [] [] [] [] [] []]; reflexivity.
Qed.

Lemma safe_head_not_gt (r : string) : safe_head r = true -> prefix ">" r = false.
Proof.
  destruct r as [|c r]; [reflexivity|]. cbn [safe_head].
  intros H. apply andb_true_iff in H as [_ H]. apply negb_true_iff in H.
  rewrite prefix_cons, Ascii.eqb_sym, H. reflexivity.
Qed.


Lemma escaped_not_bracket_gt (t r : string) :
  safe_head r = true -> prefix "]>" (subst_chars escape_char t ++ r) = false.
Proof.
  intros H. destruct t as [|c t].
  - destruct r as [|x r]; [reflexivity|].
    cbn [safe_head] in H. apply andb_true_iff in H as [H _].
    apply negb_true_iff in H. cbn [subst_chars append].
    now rewrite prefix_cons, Ascii.eqb_sym, H.
  - pose proof (head_escaped_not_gt t r (safe_head_not_gt r H)) as G.
    cbn [subst_chars]. rewrite append_assoc.
    destruct c as [[] [] [] [] [] [] [] []];
      first [ reflexivity
            | change (escape_char _) with "]"; cbn [append];
              rewrite prefix_cons; exact G ].
Qed.

Lemma accepts_escaped_chars (top : string) (below : list string) (t r : string) :
  Py.all Xml.is_char t = true -> safe_head r = true ->
  accepts (top :: below) r ->
  accepts (top :: below) (subst_chars escape_char t ++ r).
Proof.
  intros Ht Hr G. induction t as [|c t IH]; [exact G|].
  cbn [Py.all] in Ht. apply andb_true_iff in Ht as [Hc Ht].
  specialize (IH Ht).
  cbn [subst_chars]. rewrite append_assoc.
  pose proof (escaped_not_bracket_gt t r Hr) as Hgt.
  set (z := subst_chars escape_char t ++ r) in *.
  assert (E : (exists e, (e = "amp;" \/ e = "lt;" \/ e = "gt;" \/ e = "quot;" \/ e = "apos;")
                         /\ escape_char c = String "&" e)
              \/ (escape_char c = String c "" /\ (c =? "<")%char = false
                  /\ (c =? "&")%char = false)).
  { destruct c as [[] [] [] [] [] [] [] []];
      first [ right; repeat split; reflexivity
            | left; eexists; split; [|reflexivity]; tauto ]. }
  destruct E as [(e & He & ->) | (-> & H1 & H2)].
  - intros [|f] Hf; [simpl in Hf; lia|].
    cbn [append Xml.content].
    change ("&" =? "<")%char with false. change ("&" =? "&")%char with true.
    cbv iota.
    assert (R : Xml.reference (e ++ z) = Some z)
      by (destruct He as [->|[->|[->|[->| ->]]]]; reflexivity).
    rewrite R. apply IH.
    assert (L : (String.length z <= String.length (e ++ z))%nat)
      by (rewrite length_append; lia).
    cbn [append String.length] in Hf. lia.
  - cbn [append]. apply accepts_char; auto.
    rewrite prefix_cons, Hgt. apply andb_false_r.
Qed.

Lemma accepts_escaped (top : string) (below : list string) (t r : string) :
  Py.all Xml.is_char t = true -> safe_head r = true ->
  accepts (top :: below) r -> accepts (top :: below) (xml_escape t ++ r).
Proof. rewrite xml_escape_subst. apply accepts_escaped_chars. Qed.

Lemma plain_not_bracket_gt (x r : string) :
  text_safe x = true -> safe_head r = true -> prefix "]>" (x ++ r) = false.
Proof.
  intros Hx Hr. destruct x as [|c x].
  - destruct r as [|d r]; [reflexivity|].
    cbn [safe_head] in Hr. apply andb_true_iff in Hr as [H _].
    apply negb_true_iff in H. cbn [append].
    now rewrite prefix_cons, Ascii.eqb_sym, H.
  - cbn [append]. rewrite prefix_cons.
    destruct ("]" =? c)%char; [|reflexivity]. cbn [andb].
    cbn [text_safe Py.all] in Hx. apply andb_true_iff in Hx as [_ Hx].
    destruct x as [|d x].
    + cbn [append]. now apply safe_head_not_gt.
    + cbn [append Py.all] in *. apply andb_true_iff in Hx as [Hd _].
      unfold is_text_char in Hd. apply andb_true_iff in Hd as [_ Hd].
      apply negb_true_iff in Hd.
      now rewrite prefix_cons, Ascii.eqb_sym, Hd.
Qed.

Lemma accepts_plain (top : string) (below : list string) (x r : string) :
  text_safe x = true -> safe_head r = true ->
  accepts (top :: below) r -> accepts (top :: below) (x ++ r).
Proof.
  intros Hx Hr G. induction x as [|c x IH]; [exact G|].
  pose proof Hx as Hx'.
  cbn [text_safe Py.all] in Hx. apply andb_true_iff in Hx as [Hc Hx].
  unfold is_text_char in Hc.
  repeat (apply andb_true_iff in Hc as [Hc ?]).
  cbn [append]. apply accepts_char; try (now apply negb_true_iff); auto.
  rewrite prefix_cons, (plain_not_bracket_gt x r Hx Hr). apply andb_false_r.
Qed.

(** *** Texts safe as character data *)

Lemma text_safe_app (a b : string) :
  text_safe a = true -> text_safe b = true -> text_safe (a ++ b) = true.
Proof. intros Ha Hb. unfold text_safe in *. now rewrite all_app, Ha, Hb. Qed.

Lemma text_safe_digits (s : string) :
  Py.all Py.is_digit s = true -> text_safe s = true.
Proof.
  apply all_impl. intros c.
  destruct c as [[] [] [] [] [] [] [] []]; vm_compute; congruence.
Qed.

Lemma text_safe_str (n : Z) : text_safe (Py.str n) = true.
Proof.
  destruct n as [|p|p]; [reflexivity | |].
  - rewrite str_pos. apply text_safe_digits, uint_digits.
  - unfold Py.str. cbn [Z.to_int DecimalString.NilZero.string_of_int].
    replace (DecimalString.NilZero.string_of_uint (Pos.to_uint p))
      with (Py.str (Z.pos p)) by reflexivity.
    rewrite str_pos. cbn [text_safe Py.all]. apply andb_true_iff.
    split; [reflexivity | apply text_safe_digits, uint_digits].
Qed.

Lemma text_safe_fmt_02d (n : Z) : text_safe (Py.fmt_02d n) = true.
Proof.
  unfold Py.fmt_02d. destruct ((0 <=? n) && (n <? 10)).
  - apply text_safe_app; [reflexivity | apply text_safe_str].
  - apply text_safe_str.
Qed.

Lemma text_safe_nth (n : nat) (l : list string) :
  forallb text_safe l = true -> text_safe (nth n l "") = true.
Proof.
  revert n. induction l as [|x l IH]; intros n H; [now destruct n|].
  cbn [forallb] in H. apply andb_true_iff in H as [H1 H2].
  destruct n; [exact H1 | now apply IH].
Qed.

Lemma text_safe_format_rfc822 (dt : datetime) :
  text_safe (format_rfc822 dt) = true.
Proof.
  unfold format_rfc822. cbv zeta.
  repeat first [ apply text_safe_app
               | apply text_safe_fmt_02d
               | apply text_safe_str
               | apply text_safe_nth; reflexivity
               | reflexivity ].
Qed.

Lemma text_safe_format_itunes_duration (n : Z) :
  text_safe (format_itunes_duration n) = true.
Proof.
  unfold format_itunes_duration. cbv zeta.
  destruct (n / 3600 >? 0);
    repeat first [ apply text_safe_app | apply text_safe_fmt_02d
                 | reflexivity ].
Qed.

(** *** The enclosure tag *)

Lemma att_value_escaped (u rest : string) (fuel : nat) :
  Py.all Xml.is_char u = true ->
  (String.length (subst_chars escape_char u) < fuel)%nat ->
  exists v,
    Xml.att_value fuel (ascii_of_nat 34)
      (subst_chars escape_char u ++ String (ascii_of_nat 34) rest)
    = Some (v, rest).
Proof.
  revert fuel. induction u as [|c u IH]; intros fuel Hu Hf.
  - destruct fuel as [|f]; [simpl in Hf; lia|]. now exists "".
  - cbn [Py.all] in Hu. apply andb_true_iff in Hu as [Hc Hu].
    cbn [subst_chars] in *. rewrite append_assoc.
    set (z := subst_chars escape_char u ++ String (ascii_of_nat 34) rest).
    assert (E : (exists e, (e = "amp;" \/ e = "lt;" \/ e = "gt;"
                            \/ e = "quot;" \/ e = "apos;")
                           /\ escape_char c = String "&" e)
                \/ (escape_char c = String c ""
                    /\ (c =? ascii_of_nat 34)%char = false
                    /\ (c =? "<")%char = false /\ (c =? "&")%char = false)).
    { destruct c as [[] [] [] [] [] [] [] []];
        first [ right; repeat split; reflexivity
              | left; eexists; split; [|reflexivity]; tauto ]. }
    destruct fuel as [|f]; [lia|].
    destruct E as [(e & He & E) | (E & H1 & H2 & H3)]; rewrite E in *.
    + destruct (IH f Hu) as [v Hv].
      { rewrite length_append in Hf. cbn [String.length] in Hf. lia. }
      exists (String "&" v). cbn [append Xml.att_value].
      change ("&" =? ascii_of_nat 34)%char with false.
      change ("&" =? "<")%char with false.
      change ("&" =? "&")%char with true. cbv iota.
      assert (R : Xml.reference (e ++ z) = Some z)
        by (destruct He as [->|[->|[->|[->| ->]]]]; reflexivity).
      rewrite R. fold z in Hv. now rewrite Hv.
    + destruct (IH f Hu) as [v Hv].
      { cbn [append String.length] in Hf. lia. }
      exists (String c v). cbn [append Xml.att_value].
      rewrite H1, H2, H3, Hc. fold z in Hv. now rewrite Hv.
Qed.

Lemma accepts_enclosure (top : string) (below : list string) (u r : string) :
  Py.all Xml.is_char u = true ->
  accepts (top :: below) r -> accepts (top :: below) (enclosure_line u ++ r).
Proof.
  intros Hu G. unfold enclosure_line, Py.dq.
  rewrite xml_escape_subst, !append_assoc. cbn [append].
  do 6 (apply accepts_char; [reflexivity..|]).
  intros f Hf. cbn [String.length] in Hf. rewrite length_append in Hf.
  cbn [String.length] in Hf.
  replace f with (S (S (19 + (f - 21))))%nat by lia.
  set (g := (f - 21)%nat).
  assert (Hg : (String.length (subst_chars escape_char u) < 19 + g
                /\ String.length r < 20 + g)%nat) by lia.
  clearbody g. clear Hf.
  match goal with
  | |- context [subst_chars escape_char u ++ String _ ?t] =>
      set (rest := t);
      destruct (att_value_escaped u rest (19 + g)%nat Hu (proj1 Hg)) as [v Hv]
  end.
  set (z := subst_chars escape_char u ++ String (ascii_of_nat 34) rest) in *.
  rewrite content_tag by reflexivity.
  unfold Xml.open_tag.
  match goal with
  | |- context [Xml.read_name ?x] =>
      compute_to (Xml.read_name x)
        (Some ("enclosure", " url=" ++ String (ascii_of_nat 34) z))
  end.
  match goal with
  | |- context [Xml.attributes (S ?k) [] ?x] =>
      compute_to (Xml.attributes (S k) [] x)
        (match Xml.att_value k (ascii_of_nat 34) z with
         | Some (v, r3) => Xml.attributes k [("url", v)] r3
         | None => None
         end)
  end.
  rewrite Hv. subst rest.
  match goal with
  | |- context [Xml.attributes ?k ?seen ?x] =>
      compute_to (Xml.attributes k seen x)
        (Some ([("type", "audio/mpeg"); ("length", "0"); ("url", v)],
               String "/" (String ">" r)))
  end.
  apply G. lia.
Qed.

(** *** Stepping through the document *)

Ltac after_gt s :=
  lazymatch s with
  | String ">" ?r => r
  | String _ ?r => after_gt r
  end.

Ltac tag_text s :=
  lazymatch s with
  | String ">" _ => constr:(">")
  | String ?c ?r => let t := tag_text r in constr:(String c t)
  end.

Ltac end_tag_name s :=
  lazymatch s with
  | String ">" _ => constr:("")
  | String ?c ?r => let t := end_tag_name r in constr:(String c t)
  end.

Ltac tag_name s :=
  lazymatch s with
  | String " " _ => constr:("")
  | String ">" _ => constr:("")
  | String "/" _ => constr:("")
  | String ?c ?r => let n := tag_name r in constr:(String c n)
  end.

Ltac is_empty_tag s :=
  lazymatch s with
  | String "/" (String ">" _) => constr:(true)
  | String ">" _ => constr:(false)
  | String _ ?r => is_empty_tag r
  end.

Ltac safe_text :=
  first [ assumption
        | apply text_safe_format_rfc822
        | apply text_safe_format_itunes_duration
        | vm_compute; reflexivity ].

Ltac step :=
  lazymatch goal with
  | |- accepts _ (String "<" (String "/" ?r)) =>
      let n := end_tag_name r in
      let r2 := after_gt r in
      apply (accepts_close _ _ n r2 r); [reflexivity | reflexivity | ]
  | |- accepts _ (String "<" ?r) =>
      let n := tag_name r in
      let t := tag_text r in
      let r' := after_gt r in
      let e := is_empty_tag r in
      lazymatch e with
      | true =>
          apply (accepts_empty _ _ t n r' r);
          [reflexivity | reflexivity | reflexivity | reflexivity | reflexivity
          | intros; reflexivity | ]
      | false =>
          apply (accepts_open _ _ t n r' r);
          [reflexivity | reflexivity | reflexivity | reflexivity | reflexivity
          | intros; reflexivity | ]
      end
  | |- accepts _ (String _ _) => apply accepts_char; [reflexivity..|]
  | |- accepts _ (xml_escape _ ++ _) =>
      apply accepts_escaped; [first [assumption | vm_compute; reflexivity]
                          | reflexivity | ]
  | |- accepts _ (enclosure_line _ ++ _) =>
      apply accepts_enclosure; [assumption|]
  | |- accepts _ (_ ++ _) => apply accepts_plain; [safe_text | reflexivity | ]
  end.


Lemma join_snoc (lines : list string) (x : string) :
  Py.join (Py.chr 10) (lines ++ [x]) = text_of lines ++ x.
Proof.
  unfold Py.join, Py.chr. induction lines as [|l ls IH]; [reflexivity|].
  change ((l :: ls) ++ [x])%list with (l :: (ls ++ [x]))%list.
  assert (E : String.concat (String (ascii_of_nat 10) "") (l :: (ls ++ [x]))
              = l ++ String (ascii_of_nat 10) ""
                ++ String.concat (String (ascii_of_nat 10) "") (ls ++ [x]))
    by (destruct ls; reflexivity).
  rewrite E, IH. cbn [text_of fold_right]. fold (text_of ls).
  now rewrite append_assoc.
Qed.

Lemma text_of_app (a b : list string) :
  text_of (a ++ b) = text_of a ++ text_of b.
Proof.
  induction a as [|l a IH]; [reflexivity|].
  cbn [app text_of fold_right]. fold (text_of (a ++ b)). fold (text_of a).
  now rewrite IH, append_assoc.
Qed.

Lemma text_of_append (lines : list string) (r : string) :
  text_of lines ++ r
  = fold_right (fun l acc => l ++ String (ascii_of_nat 10) acc) r lines.
Proof.
  induction lines as [|l ls IH]; [reflexivity|].
  cbn [text_of fold_right]. fold (text_of ls).
  now rewrite append_assoc, <- IH.
Qed.

Ltac cons_form :=
  rewrite ?text_of_append;
  unfold text_of, link_line, guid_line, duration_line, Py.dq, Py.chr,
    PROGRAM_URL, PROGRAM_IMAGE, PROGRAM_CATEGORY, PROGRAM_LANGUAGE, CHANNEL,
    FEED_SELF_URL, PROGRAM_ID, PROGRAM_SLUG, a_acute, a_tilde, c_cedil,
    e_acute, e_circ, i_acute, o_acute, o_tilde, u_acute, copyright_sign,
    Py.chr;
  cbn [fold_right app];
  rewrite ?append_assoc; cbn [append].

Lemma accepts_item (ep : episode) (r : string) :
  clean_record ep = true ->
  accepts ["channel"; "rss"] r ->
  accepts ["channel"; "rss"] (text_of (item_lines ep) ++ r).
Proof.
  unfold clean_record. intros H G.
  repeat (apply andb_true_iff in H as [H ?]).
  rewrite item_lines_shape.
  destruct (audio_url ep) as [u|]; [destruct (truthy u)|];
    destruct (duration ep >? 0);
    cons_form; repeat step; exact G.
Qed.

Lemma accepts_items (episodes : list episode) (r : string) :
  forallb clean_record episodes = true ->
  accepts ["channel"; "rss"] r ->
  accepts ["channel"; "rss"] (text_of (flat_map item_lines episodes) ++ r).
Proof.
  intros H G. induction episodes as [|ep eps IH]; [exact G|].
  cbn [forallb] in H. apply andb_true_iff in H as [H1 H2].
  cbn [flat_map]. rewrite text_of_app, append_assoc.
  apply accepts_item; auto.
Qed.

Lemma accepts_closing :
  accepts ["channel"; "rss"] ("  </channel>" ++ String (ascii_of_nat 10) "</rss>").
Proof. cbn [append]. repeat step. apply accepts_nil. Qed.

(** *** The whole document *)

(** A document is well-formed when its declaration and root tag are read
    and the rest is accepted as the content of the root. *)
Lemma well_formed_root (doc pre t1 t2 t3 n : string) :
  doc = pre ++ t3 ->
  Xml.declaration (S (String.length doc)) doc = Some t1 ->
  Xml.misc (S (String.length doc)) t1 = Some (String "<" t2) ->
  Xml.open_tag (S (String.length doc)) t2 = Some (n, false, t3) ->
  accepts [n] t3 -> Xml.well_formed doc = true.
Proof.
  intros E H1 H2 H3 G. unfold Xml.well_formed. cbv zeta.
  rewrite H1, H2, H3. apply G. rewrite E, length_append. lia.
Qed.

Ltac until_gt s :=
  lazymatch s with
  | String ">" _ => constr:(">")
  | String ?c ?r => let t := until_gt r in constr:(String c t)
  end.

(** The declaration, the root tag and the channel head, up to the first
    item. *)
Lemma wf_channel (now : datetime) (r : string) :
  accepts ["channel"; "rss"] r ->
  Xml.well_formed (text_of (channel_lines now) ++ r) = true.
Proof.
  intros G. unfold channel_lines. cbv zeta. cons_form.
  match goal with
  | |- Xml.well_formed ?doc = true =>
      let p1 := until_gt doc in
      let t1 := after_gt doc in
      lazymatch t1 with
      | String _ (String "<" ?t2) =>
          let p2 := until_gt t2 in
          let t3 := after_gt t2 in
          apply (well_formed_root doc (p1 ++ String (ascii_of_nat 10) (String "<" p2))
                   t1 t2 t3 "rss");
          [reflexivity | reflexivity | reflexivity | reflexivity | ]
      end
  end.
  repeat step. exact G.
Qed.

(** The document of every list of clean records is well-formed, at any
    clock reading. *)
Lemma generate_rss_well_formed (now : datetime) (episodes : list episode) :
  clean_records episodes = true ->
  Xml.well_formed (generate_rss now episodes) = true.
Proof.
  intros H. unfold generate_rss. rewrite rss_lines_blocks.
  replace (channel_lines now
           ++ flat_map item_lines episodes ++ ["  </channel>"; "</rss>"])%list
    with ((channel_lines now
           ++ flat_map item_lines episodes ++ ["  </channel>"])
          ++ ["</rss>"])%list
    by (now rewrite <- !app_assoc).
  rewrite join_snoc, !text_of_app, !append_assoc.
  apply wf_channel, accepts_items; [exact H|].
  exact accepts_closing.
Qed.

(** The document of the empty list: the channel block and no item. *)
Lemma generate_rss_empty (now : datetime) :
  rss_lines now [] = app (channel_lines now) ["  </channel>"; "</rss>"]
  /\ count_sub "<item>" (generate_rss now []) = 0%nat.
Proof.
  split; [now rewrite rss_lines_blocks|].
  now rewrite count_item_document.
Qed.

(** So are the document of the empty list and the fallback document. *)
Lemma fallback_document_well_formed (now : datetime) :
  Xml.well_formed (generate_rss now []) = true
  /\ Xml.well_formed (generate_feed_from_hardcoded_data now) = true.
Proof.
  split; apply generate_rss_well_formed; vm_compute; reflexivity.
Qed.

(** C2 (the code departs from it). The documents of the empty list and of
    the fallback list are well-formed, but a record whose address carries a
    query string is rendered with a bare ampersand in its [link] element,
    and the document is not well-formed.  The extractor produces such a
    record from a link with that address. *)
Theorem generate_rss_bare_ampersand (now : datetime) :
  Xml.well_formed (generate_rss now []) = true
  /\ Xml.well_formed (generate_feed_from_hardcoded_data now) = true
  /\ scrape_episodes_from_soup now [query_link] = Ok [query_episode]
  /\ clean_record query_episode = false
  /\ In "      <link>https://www.rtp.pt/play/p8339/e908229/panfletos?a=1&b=2</link>"
       (rss_lines now [query_episode])
  /\ Xml.well_formed (generate_rss sample_now [query_episode]) = false.
Proof.
  destruct (fallback_document_well_formed now) as [W1 W2].
  split; [exact W1|]. split; [exact W2|].
  split; [reflexivity|]. split; [reflexivity|]. split.
  - rewrite rss_lines_blocks. apply in_or_app. right.
    apply in_or_app. left. cbn [flat_map]. rewrite app_nil_r.
    rewrite item_lines_shape. right. right. left. reflexivity.
  - vm_compute. reflexivity.
Qed.

(** * Further properties *)

(** ** More on escaping *)

Lemma escape_char_cases (c : ascii) :
  (reserved c = false /\ escape_char c = String c "")
  \/ (c = "&"%char /\ escape_char c = "&amp;")
  \/ (c = "<"%char /\ escape_char c = "&lt;")
  \/ (c = ">"%char /\ escape_char c = "&gt;")
  \/ (c = ascii_of_nat 34 /\ escape_char c = "&quot;")
  \/ (c = "'"%char /\ escape_char c = "&apos;").
Proof.
  destruct c as [[] [] [] [] [] [] [] []]; vm_compute; tauto.
Qed.

Lemma subst_escape_nil (s : string) :
  subst_chars escape_char s = "" -> s = "".
Proof.
  destruct s as [|c s]; [reflexivity|]. simpl.
  destruct (escape_char_cases c) as [[_ E]|[[_ E]|[[_ E]|[[_ E]|[[_ E]|[_ E]]]]]];
    rewrite E; discriminate.
Qed.

Lemma escape_char_prefix_free (c d : ascii) (r t : string) :
  escape_char c ++ r = escape_char d ++ t -> c = d /\ r = t.
Proof.
  destruct (escape_char_cases c) as [[Rc E]|[[-> E]|[[-> E]|[[-> E]|[[-> E]|[-> E]]]]]];
    rewrite E; clear E;
    destruct (escape_char_cases d) as [[Rd E]|[[-> E]|[[-> E]|[[-> E]|[[-> E]|[-> E]]]]]];
    rewrite E; clear E; cbn [append]; intros H;
    try (injection H; intros; subst; try discriminate; auto; fail).
Qed.

Lemma subst_escape_injective (a b : string) :
  subst_chars escape_char a = subst_chars escape_char b -> a = b.
Proof.
  revert b. induction a as [|c a IH]; intros b H.
  - symmetry. apply subst_escape_nil. now rewrite <- H.
  - destruct b as [|d b].
    + apply subst_escape_nil in H. discriminate.
    + simpl in H. apply escape_char_prefix_free in H as [-> H].
      f_equal. now apply IH.
Qed.

(** X1. [xml_escape] loses nothing: two texts have the same escape only
    when they are the same text. *)
Theorem xml_escape_injective (a b : string) :
  xml_escape a = xml_escape b <-> a = b.
Proof.
  split; [|now intros ->].
  rewrite !xml_escape_subst. apply subst_escape_injective.
Qed.

Lemma entities_only_escape (s : string) :
  entities_only (subst_chars escape_char s) = true.
Proof.
  induction s as [|c s IH]; [reflexivity|]. simpl.
  destruct (escape_char_cases c) as [[Rc E]|[[-> E]|[[-> E]|[[-> E]|[[-> E]|[-> E]]]]]];
    rewrite E; clear E; cbn; rewrite ?IH, ?prefix_nil;
    try reflexivity.
  destruct (c =? "&")%char eqn:Ec; [|reflexivity].
  unfold reserved in Rc. now rewrite Ec in Rc.
Qed.

Lemma no_markup_escape (s : string) :
  Py.all (fun c => negb (is_markup_char c)) (subst_chars escape_char s) = true.
Proof.
  apply all_subst_chars. intros c.
  destruct c as [[] [] [] [] [] [] [] []]; reflexivity.
Qed.

Lemma xml_escape_injective_witness :
  "A & B" = "A " ++ "& B".
Proof.
  apply (proj1 (xml_escape_injective "A & B" ("A " ++ "& B"))). reflexivity.
Defined.

(** X2. What [xml_escape] writes holds no angle bracket and no quote, and
    each of its ampersands opens one of the five entities. *)
Theorem xml_escape_output (s : string) :
  Py.all (fun c => negb (is_markup_char c)) (xml_escape s) = true
  /\ entities_only (xml_escape s) = true.
Proof.
  rewrite xml_escape_subst. split.
  - apply no_markup_escape.
  - apply entities_only_escape.
Qed.

Lemma length_escape (s : string) :
  (String.length s <= String.length (subst_chars escape_char s))%nat
  /\ (String.length (subst_chars escape_char s) = String.length s ->
      Py.all (fun c => negb (reserved c)) s = true).
Proof.
  induction s as [|c s [IH1 IH2]]; [split; auto|].
  simpl. rewrite length_append.
  destruct (escape_char_cases c) as [[Rc E]|[[-> E]|[[-> E]|[[-> E]|[[-> E]|[-> E]]]]]];
    rewrite E; clear E; simpl; split; try lia.
  intros H. rewrite Rc. simpl. apply IH2. lia.
Qed.

Lemma escape_unreserved (s : string) :
  Py.all (fun c => negb (reserved c)) s = true ->
  subst_chars escape_char s = s.
Proof.
  induction s as [|c s IH]; [reflexivity|]. simpl.
  destruct (reserved c) eqn:Rc; [discriminate|]. simpl. intros H.
  rewrite (IH H).
  destruct (escape_char_cases c) as [[_ E]|[[-> E]|[[-> E]|[[-> E]|[[-> E]|[-> E]]]]]];
    try discriminate Rc.
  now rewrite E.
Qed.

(** X3. [xml_escape] leaves a text as it is exactly when the text has none
    of the five reserved characters; otherwise the result is longer. *)
Theorem xml_escape_fixed_points (s : string) :
  (xml_escape s = s <-> Py.all (fun c => negb (reserved c)) s = true)
  /\ (String.length s <= String.length (xml_escape s))%nat.
Proof.
  rewrite xml_escape_subst. split; [split|].
  - intros H. apply length_escape. now rewrite H.
  - apply escape_unreserved.
  - apply length_escape.
Qed.

Lemma xml_escape_fixed_points_witness :
  xml_escape "Panfletos" = "Panfletos".
Proof.
  apply (proj1 (xml_escape_fixed_points "Panfletos")). reflexivity.
Defined.

(** X4. Escaping commutes with concatenation: the escape of a text in
    parts is the parts' escapes in a row, so an entity never straddles two
    parts. *)
Theorem xml_escape_app (a b : string) :
  xml_escape (a ++ b) = xml_escape a ++ xml_escape b.
Proof.
  rewrite !xml_escape_subst. apply subst_chars_app.
Qed.

(** ** More on durations *)







Lemma span_suffix_ends (p : ascii -> bool) (b : string) :
  snd (Py.span p b) <> "" ->
  ends_without_digit b = true ->
  ends_without_digit (snd (Py.span p b)) = true.
Proof.
  induction b as [|c b IH]; simpl; [congruence|].
  destruct (p c) eqn:E; [|auto].
  destruct (Py.span p b) as [x y] eqn:Eb. simpl. intros Hy H.
  apply (IH Hy). destruct b; [simpl in Eb; injection Eb as <- <-; congruence|assumption].
Qed.









(** ** Reading the formats back *)

Lemma two_digits_value (n : Z) :
  0 <= n < 100 -> dec_val (two_digits n) = n.
Proof.
  intros H.
  assert (A : forallb (fun k => dec_val (two_digits (Z.of_nat k))
                                =? Z.of_nat k) (seq 0 100) = true)
    by (vm_compute; reflexivity).
  rewrite forallb_forall in A.
  specialize (A (Z.to_nat n)). rewrite Z2Nat.id in A by lia.
  apply Z.eqb_eq, A, in_seq. lia.
Qed.

Lemma two_digits_injective (a b : Z) :
  0 <= a < 100 -> 0 <= b < 100 -> two_digits a = two_digits b -> a = b.
Proof.
  intros Ha Hb H.
  rewrite <- (two_digits_value a Ha), <- (two_digits_value b Hb).
  now rewrite H.
Qed.

Lemma fmt_02d_digits (n : Z) :
  0 <= n ->
  Py.fmt_02d n <> "" /\ Py.all Py.is_digit (Py.fmt_02d n) = true
  /\ dec_val (Py.fmt_02d n) = n.
Proof.
  intros H. destruct (str_digits n H) as (Hne & Hd & Hv).
  unfold Py.fmt_02d. destruct ((0 <=? n) && (n <? 10)); [|auto].
  repeat split; [discriminate | exact Hd | exact Hv].
Qed.

Lemma digits_before_separator (a b x y : string) (c : ascii) :
  Py.all Py.is_digit a = true -> Py.all Py.is_digit b = true ->
  Py.is_digit c = false ->
  a ++ String c x = b ++ String c y -> a = b /\ x = y.
Proof.
  intros Ha Hb Hc H.
  pose proof (span_app Py.is_digit a (String c x) Ha Hc) as E1.
  pose proof (span_app Py.is_digit b (String c y) Hb Hc) as E2.
  rewrite H, E2 in E1. injection E1 as E3 E4. subst. auto.
Qed.

Lemma length_two_digits (n : Z) : String.length (two_digits n) = 2%nat.
Proof. reflexivity. Qed.

Lemma app_inv_length (a b x y : string) :
  String.length a = String.length b -> a ++ x = b ++ y -> a = b /\ x = y.
Proof.
  revert b. induction a as [|c a IH]; intros [|d b]; simpl; try discriminate.
  - auto.
  - intros [= Hl] [= -> H]. destruct (IH b Hl H) as [-> ->]. auto.
Qed.

Lemma hms_decompose (seconds : Z) :
  seconds = 3600 * (seconds / 3600) + 60 * ((seconds mod 3600) / 60)
            + seconds mod 60
  /\ 0 <= (seconds mod 3600) / 60 < 60 /\ 0 <= seconds mod 60 < 60.
Proof.
  pose proof (Z.mod_pos_bound seconds 3600 ltac:(lia)).
  repeat split.
  - rewrite (Z.div_mod seconds 3600) at 1 by lia.
    rewrite (Z.div_mod (seconds mod 3600) 60) at 1 by lia.
    replace (seconds mod 60) with ((seconds mod 3600) mod 60); [lia|].
    apply Z.mod_mod_divide. exists 60. reflexivity.
  - apply Z.div_pos; lia.
  - apply Z.div_lt_upper_bound; lia.
  - apply Z.mod_pos_bound; lia.
  - apply Z.mod_pos_bound; lia.
Qed.

Lemma format_itunes_duration_short (seconds : Z) :
  seconds < 3600 ->
  format_itunes_duration seconds
  = two_digits ((seconds mod 3600) / 60) ++ ":" ++ two_digits (seconds mod 60).
Proof.
  intros H. destruct (hms_decompose seconds) as (_ & Hm & Hs).
  unfold format_itunes_duration.
  replace (seconds / 3600 >? 0) with false.
  - now rewrite !fmt_02d_two_digits by lia.
  - assert (seconds / 3600 < 1) by (apply Z.div_lt_upper_bound; lia).
    symmetry. rewrite Z.gtb_ltb. apply Z.ltb_ge. lia.
Qed.

Lemma format_itunes_duration_long (seconds : Z) :
  3600 <= seconds ->
  format_itunes_duration seconds
  = Py.fmt_02d (seconds / 3600) ++ ":"
    ++ two_digits ((seconds mod 3600) / 60) ++ ":"
    ++ two_digits (seconds mod 60)
  /\ 0 < seconds / 3600.
Proof.
  intros H. destruct (hms_decompose seconds) as (_ & Hm & Hs).
  assert (0 < seconds / 3600) by (apply Z.div_str_pos; lia).
  unfold format_itunes_duration.
  replace (seconds / 3600 >? 0) with true
    by (symmetry; rewrite Z.gtb_ltb; apply Z.ltb_lt; lia).
  now rewrite !(fmt_02d_two_digits (_ mod _)), !(fmt_02d_two_digits (_ / 60)) by lia.
Qed.

Lemma colon_not_digit : Py.is_digit ":" = false.
Proof. reflexivity. Qed.

Lemma two_digits_pair (m s m' s' : Z) (x y : string) :
  0 <= m < 100 -> 0 <= s < 100 -> 0 <= m' < 100 -> 0 <= s' < 100 ->
  two_digits m ++ ":" ++ two_digits s ++ x
  = two_digits m' ++ ":" ++ two_digits s' ++ y ->
  m = m' /\ s = s' /\ x = y.
Proof.
  intros Hm Hs Hm' Hs' H.
  apply app_inv_length in H as [E1 H]; [|reflexivity].
  apply (app_inv_length ":" ":") in H as [_ H]; [|reflexivity].
  apply app_inv_length in H as [E2 H]; [|reflexivity].
  repeat split; auto using two_digits_injective.
Qed.

(** X7. [format_itunes_duration] can be read back: two non-negative
    numbers of seconds with the same text are the same number. *)
Theorem format_itunes_duration_injective (a b : Z) :
  0 <= a -> 0 <= b ->
  format_itunes_duration a = format_itunes_duration b -> a = b.
Proof.
  intros Ha Hb.
  destruct (hms_decompose a) as (Da & Ma & Sa).
  destruct (hms_decompose b) as (Db & Mb & Sb).
  destruct (Z.lt_ge_cases a 3600) as [La|La];
    destruct (Z.lt_ge_cases b 3600) as [Lb|Lb].
  - rewrite !format_itunes_duration_short by assumption. intros H.
    rewrite <- (append_nil_r (two_digits (a mod 60))),
      <- (append_nil_r (two_digits (b mod 60))) in H.
    apply two_digits_pair in H as (E1 & E2 & _); [|lia..].
    assert (a / 3600 = 0) by (apply Z.div_small; lia).
    assert (b / 3600 = 0) by (apply Z.div_small; lia). lia.
  - rewrite format_itunes_duration_short by assumption.
    destruct (format_itunes_duration_long b Lb) as [-> Hh].
    destruct (fmt_02d_digits (b / 3600) ltac:(lia)) as (Hne & _).
    intros H. apply (f_equal String.length) in H.
    rewrite !length_append, !length_two_digits in H. simpl in H.
    destruct (Py.fmt_02d (b / 3600)); [congruence|]. simpl in H. lia.
  - rewrite (format_itunes_duration_short b) by assumption.
    destruct (format_itunes_duration_long a La) as [-> Hh].
    destruct (fmt_02d_digits (a / 3600) ltac:(lia)) as (Hne & _).
    intros H. apply (f_equal String.length) in H.
    rewrite !length_append, !length_two_digits in H. simpl in H.
    destruct (Py.fmt_02d (a / 3600)); [congruence|]. simpl in H. lia.
  - destruct (format_itunes_duration_long a La) as [-> Hha].
    destruct (format_itunes_duration_long b Lb) as [-> Hhb].
    destruct (fmt_02d_digits (a / 3600) ltac:(lia)) as (_ & Hda & Hva).
    destruct (fmt_02d_digits (b / 3600) ltac:(lia)) as (_ & Hdb & Hvb).
    intros H. cbn [append] in H.
    apply digits_before_separator in H as [E H]; auto.
    rewrite <- (append_nil_r (two_digits (a mod 60))),
      <- (append_nil_r (two_digits (b mod 60))) in H.
    apply two_digits_pair in H as (E1 & E2 & _); [|lia..].
    assert (Eh : a / 3600 = b / 3600) by congruence. lia.
Qed.

Lemma format_itunes_duration_injective_witness : 420 = 7 * 60.
Proof.
  apply (format_itunes_duration_injective 420 (7 * 60));
    [lia | lia | reflexivity].
Defined.

(** X8. A negative number of seconds is written as the time it leaves
    when counted back from the hour, in five characters: -1 gives the text
    of 3599.  So the text can be read back for non-negative numbers only. *)
Theorem format_itunes_duration_negative (seconds : Z) :
  seconds < 0 ->
  format_itunes_duration seconds = format_itunes_duration (seconds mod 3600)
  /\ format_itunes_duration seconds
     = two_digits ((seconds mod 3600) / 60) ++ ":"
       ++ two_digits (seconds mod 60)
  /\ String.length (format_itunes_duration seconds) = 5%nat.
Proof.
  intros H.
  pose proof (Z.mod_pos_bound seconds 3600 ltac:(lia)) as B.
  rewrite (format_itunes_duration_short seconds) by lia.
  rewrite (format_itunes_duration_short (seconds mod 3600)) by lia.
  rewrite Z.mod_mod by lia.
  replace ((seconds mod 3600) mod 60) with (seconds mod 60)
    by (symmetry; apply Z.mod_mod_divide; exists 60; reflexivity).
  repeat split; reflexivity.
Qed.

Lemma format_itunes_duration_negative_witness :
  format_itunes_duration (-1) = format_itunes_duration 3599
  /\ format_itunes_duration (-1) = "59:59".
Proof.
  destruct (format_itunes_duration_negative (-1) ltac:(lia)) as (H1 & H2 & _).
  split; [exact H1 | exact H2].
Defined.

Lemma length_nth_names (l : list string) (i : nat) (n : nat) :
  Forall (fun s => String.length s = n) l -> (i < List.length l)%nat ->
  String.length (nth i l "") = n.
Proof.
  intros H Hi. rewrite Forall_forall in H. apply H, nth_In, Hi.
Qed.

Lemma valid_datetime_bounds (dt : datetime) :
  valid_datetime dt = true ->
  1 <= year dt <= 9999 /\ 1 <= month dt <= 12 /\ 1 <= day dt <= 31
  /\ 0 <= hour dt <= 23 /\ 0 <= minute dt <= 59 /\ 0 <= second dt <= 59.
Proof.
  unfold valid_datetime, valid_date, valid_time, between.
  intros H. pose proof (days_in_month_le (year dt) (month dt)).
  repeat (apply andb_prop in H as [H ?]).
  repeat match goal with
         | X : (_ <=? _) = true |- _ => apply Z.leb_le in X
         end.
  lia.
Qed.

(** X9. The text of a timestamp names it: two valid timestamps with the
    same text agree in every field the text shows, that is in all but the
    microsecond. *)
Theorem format_rfc822_injective (a b : datetime) :
  valid_datetime a = true -> valid_datetime b = true ->
  format_rfc822 a = format_rfc822 b ->
  year a = year b /\ month a = month b /\ day a = day b
  /\ hour a = hour b /\ minute a = minute b /\ second a = second b.
Proof.
  intros Va Vb.
  destruct (format_rfc822_lookups a Va) as (Wa & Ma0 & Ma).
  destruct (format_rfc822_lookups b Vb) as (Wb & Mb0 & Mb).
  destruct (valid_datetime_bounds a Va) as (Ya & _ & Da & Ha & Mia & Sa).
  destruct (valid_datetime_bounds b Vb) as (Yb & _ & Db & Hb & Mib & Sb).
  unfold format_rfc822.
  rewrite !(fmt_02d_two_digits (day _)), !(fmt_02d_two_digits (hour _)),
    !(fmt_02d_two_digits (minute _)), !(fmt_02d_two_digits (second _)) by lia.
  set (days := ["Mon"; "Tue"; "Wed"; "Thu"; "Fri"; "Sat"; "Sun"]).
  set (months := ["Jan"; "Feb"; "Mar"; "Apr"; "May"; "Jun";
                  "Jul"; "Aug"; "Sep"; "Oct"; "Nov"; "Dec"]).
  intros H.
  apply app_inv_length in H as [_ H].
  2:{ rewrite !(length_nth_names days _ 3); auto;
        repeat constructor. }
  apply (app_inv_length ", " ", ") in H as [_ H]; [|reflexivity].
  apply app_inv_length in H as [Ed H]; [|reflexivity].
  apply (app_inv_length " " " ") in H as [_ H]; [|reflexivity].
  apply app_inv_length in H as [Em H].
  2:{ rewrite !(length_nth_names months _ 3); auto;
        repeat constructor. }
  apply (app_inv_length " " " ") in H as [_ H]; [|reflexivity].
  destruct (str_digits (year a) ltac:(lia)) as (_ & Hda & Hva).
  destruct (str_digits (year b) ltac:(lia)) as (_ & Hdb & Hvb).
  cbn [append] in H.
  apply digits_before_separator in H as [Ey H]; auto.
  apply two_digits_pair in H as (Eh & H1 & H); [|lia..].
  apply (app_inv_length ":" ":") in H as [_ H]; [|reflexivity].
  apply app_inv_length in H as [Es _]; [|reflexivity].
  assert (NoDup months) by (repeat constructor; simpl; intuition discriminate).
  assert (Z.to_nat (month a - 1) = Z.to_nat (month b - 1)).
  { eapply (proj1 (NoDup_nth months "")); eauto. }
  repeat split; try lia.
  - congruence.
  - apply two_digits_injective; auto; lia.
  - apply two_digits_injective; auto; lia.
Qed.

Lemma format_rfc822_injective_witness :
  year (mkdt 2026 2 11 12 0 0 0) = year (mkdt 2026 2 11 12 0 0 7)
  /\ month (mkdt 2026 2 11 12 0 0 0) = month (mkdt 2026 2 11 12 0 0 7)
  /\ day (mkdt 2026 2 11 12 0 0 0) = day (mkdt 2026 2 11 12 0 0 7)
  /\ hour (mkdt 2026 2 11 12 0 0 0) = hour (mkdt 2026 2 11 12 0 0 7)
  /\ minute (mkdt 2026 2 11 12 0 0 0) = minute (mkdt 2026 2 11 12 0 0 7)
  /\ second (mkdt 2026 2 11 12 0 0 0) = second (mkdt 2026 2 11 12 0 0 7).
Proof.
  apply (format_rfc822_injective (mkdt 2026 2 11 12 0 0 0)
           (mkdt 2026 2 11 12 0 0 7)); reflexivity.
Defined.

(** ** Days of the week *)

Lemma days_before_next_year (y : Z) :
  days_before_year (y + 1)
  = days_before_year y + 365 + (if is_leap y then 1 else 0).
Proof.
  unfold days_before_year, is_leap.
  replace (y + 1 - 1) with y by lia.
  destruct (Z.eqb_spec (y mod 4) 0) as [H4|H4];
    destruct (Z.eqb_spec (y mod 100) 0) as [H100|H100];
    destruct (Z.eqb_spec (y mod 400) 0) as [H400|H400];
    cbn [andb orb negb];
    revert H4 H100 H400;
    Z.div_mod_to_equations; lia.
Qed.

Lemma days_before_next_month (y m : Z) :
  1 <= m < 12 ->
  days_before_month y (m + 1) = days_before_month y m + days_in_month y m.
Proof.
  intros H. unfold days_before_month, days_in_month.
  assert (C : m = 1 \/ m = 2 \/ m = 3 \/ m = 4 \/ m = 5 \/ m = 6
              \/ m = 7 \/ m = 8 \/ m = 9 \/ m = 10 \/ m = 11) by lia.
  destruct (is_leap y);
    repeat (destruct C as [C|C]; [subst m; vm_compute; reflexivity|]);
    subst m; vm_compute; reflexivity.
Qed.

Lemma days_in_december (y : Z) :
  days_before_month y 12 + days_in_month y 12
  = 365 + (if is_leap y then 1 else 0)
  /\ days_before_month (y + 1) 1 = 0.
Proof.
  unfold days_before_month, days_in_month.
  destruct (is_leap y); split; reflexivity.
Qed.

Lemma toordinal_tomorrow (dt : datetime) :
  valid_datetime dt = true -> toordinal (tomorrow dt) = toordinal dt + 1.
Proof.
  intros V. destruct (valid_datetime_bounds dt V) as (_ & M & _).
  unfold valid_datetime, valid_date, between in V.
  repeat (apply andb_prop in V as [V ?]).
  repeat match goal with
         | X : (_ <=? _) = true |- _ => apply Z.leb_le in X
         end.
  unfold tomorrow.
  destruct (Z.ltb_spec (day dt) (days_in_month (year dt) (month dt))) as [L|L].
  - unfold toordinal. cbn [year month day]. lia.
  - assert (D : day dt = days_in_month (year dt) (month dt)) by lia.
    destruct (Z.ltb_spec (month dt) 12) as [L12|L12].
    + unfold toordinal. cbn [year month day].
      rewrite D, days_before_next_month by lia. lia.
    + assert (E : month dt = 12) by lia.
      unfold toordinal. cbn [year month day]. rewrite D, E.
      rewrite days_before_next_year.
      destruct (days_in_december (year dt)) as [E1 E2]. rewrite E2. lia.
Qed.

Lemma weekday_tomorrow (dt : datetime) :
  valid_datetime dt = true -> weekday (tomorrow dt) = (weekday dt + 1) mod 7.
Proof.
  intros V. unfold weekday. rewrite (toordinal_tomorrow dt V).
  rewrite Z.add_mod_idemp_l by lia. f_equal. lia.
Qed.

Lemma day_name_weekday (dt : datetime) :
  day_name dt
  = nth (Z.to_nat (weekday dt))
      ["Mon"; "Tue"; "Wed"; "Thu"; "Fri"; "Sat"; "Sun"] "".
Proof.
  unfold day_name, format_rfc822.
  pose proof (weekday_range dt) as R.
  assert (C : weekday dt = 0 \/ weekday dt = 1 \/ weekday dt = 2
              \/ weekday dt = 3 \/ weekday dt = 4 \/ weekday dt = 5
              \/ weekday dt = 6) by lia.
  repeat (destruct C as [C|C]; [rewrite C; reflexivity|]).
  rewrite C; reflexivity.
Qed.

(** X10. The day names follow the calendar: the text of the day after a
    valid timestamp opens with the name that follows the name of the
    timestamp's own text, and 11 February 2026 is a Wednesday. *)
Theorem format_rfc822_day_names (dt : datetime) :
  valid_datetime dt = true ->
  day_name (tomorrow dt) = next_day_name (day_name dt)
  /\ day_name (mkdt 2026 2 11 12 0 0 0) = "Wed".
Proof.
  intros V. split; [|reflexivity].
  rewrite !day_name_weekday, (weekday_tomorrow dt V).
  pose proof (weekday_range dt) as R.
  assert (C : weekday dt = 0 \/ weekday dt = 1 \/ weekday dt = 2
              \/ weekday dt = 3 \/ weekday dt = 4 \/ weekday dt = 5
              \/ weekday dt = 6) by lia.
  repeat (destruct C as [C|C]; [rewrite C; reflexivity|]).
  rewrite C; reflexivity.
Qed.

Lemma format_rfc822_day_names_witness :
  day_name (tomorrow (mkdt 2026 2 28 12 0 0 0))
  = next_day_name (day_name (mkdt 2026 2 28 12 0 0 0)).
Proof. apply format_rfc822_day_names. reflexivity. Defined.

(** ** More on dates *)

Lemma datetime_new_valid (y m d hh mm ss : Z) (dt : datetime) :
  datetime_new y m d hh mm ss = Ok dt ->
  dt = mkdt y m d hh mm ss 0 /\ valid_datetime dt = true.
Proof.
  unfold datetime_new.
  destruct (negb (forallb fits_c_int [y; m; d; hh; mm; ss])); [discriminate|].
  destruct (valid_date y m d && valid_time hh mm ss 0) eqn:E; [|discriminate].
  intros [= <-]. split; [reflexivity|exact E].
Qed.

(** X11. What [parse_pt_date] gives: the clock reading, or a valid
    timestamp at noon; and it raises only on a text of exactly three
    tokens. *)
Theorem parse_pt_date_outcomes (now : datetime) (date_str : string) :
  match parse_pt_date now date_str with
  | Ok dt =>
      dt = now
      \/ (valid_datetime dt = true /\ hour dt = 12 /\ minute dt = 0
          /\ second dt = 0 /\ microsecond dt = 0)
  | Raise _ => List.length (Py.split (cleaned date_str)) = 3%nat
  end.
Proof.
  unfold parse_pt_date. fold (cleaned date_str).
  destruct (Py.split (cleaned date_str)) as [|p0 [|p1 [|p2 [|p3 l]]]];
    try (left; reflexivity).
  destruct (Py.int p0) as [d|e]; [|reflexivity].
  destruct (Py.int p2) as [y|e]; [|reflexivity]. cbn [bind].
  destruct (datetime_new y _ d 12 0 0) as [dt|e] eqn:E; [|reflexivity].
  apply datetime_new_valid in E as [-> V]. right. auto.
Qed.

Lemma split_from_lstrip (s : string) :
  Py.split_from "" (Py.lstrip s) = Py.split_from "" s.
Proof.
  induction s as [|c s IH]; [reflexivity|]. simpl.
  destruct (Py.is_space c) eqn:E; [exact IH|].
  simpl. now rewrite E.
Qed.

Lemma split_from_cons (w : string) (c : ascii) (s : string) :
  Py.split_from w (String c s)
  = if Py.is_space c then (Py.flush w ++ Py.split_from "" s)%list
    else Py.split_from (w ++ String c "") s.
Proof. reflexivity. Qed.

Lemma split_from_rstrip (s w : string) :
  Py.split_from w (Py.rstrip s) = Py.split_from w s.
Proof.
  revert w. induction s as [|c s IH]; intros w; [reflexivity|].
  cbn [Py.rstrip].
  destruct (Py.rstrip s) as [|d r] eqn:Er.
  - assert (Hs : forall word, Py.split_from word s = Py.flush word)
      by (intros word; now rewrite <- IH).
    cbn [Py.split_from]. rewrite !Hs.
    destruct (Py.is_space c) eqn:E.
    + simpl. now rewrite app_nil_r.
    + cbn [Py.split_from]. now rewrite E.
  - rewrite (split_from_cons w c (String d r)), (split_from_cons w c s).
    now rewrite !IH.
Qed.

Lemma split_strip (s : string) : Py.split (Py.strip s) = Py.split s.
Proof.
  unfold Py.split, Py.strip.
  now rewrite split_from_rstrip, split_from_lstrip.
Qed.

Lemma lstrip_decompose (s : string) :
  exists w, Py.all Py.is_space w = true /\ s = w ++ Py.lstrip s.
Proof.
  induction s as [|c s (w & Hw & E)]; [now exists ""|]. simpl.
  destruct (Py.is_space c) eqn:Ec.
  - exists (String c w). simpl. rewrite Ec, Hw. split; [reflexivity|].
    now rewrite <- E.
  - now exists "".
Qed.

Lemma rstrip_decompose (s : string) :
  exists w, Py.all Py.is_space w = true /\ s = Py.rstrip s ++ w.
Proof.
  induction s as [|c s (w & Hw & E)]; [now exists ""|]. cbn [Py.rstrip].
  destruct (Py.rstrip s) as [|d r] eqn:Er.
  - destruct (Py.is_space c) eqn:Ec.
    + exists (String c w). cbn [Py.all append]. rewrite Ec, Hw.
      split; [reflexivity|]. f_equal. exact E.
    + exists w. split; [assumption|]. cbn [append]. f_equal. exact E.
  - exists w. split; [assumption|]. cbn [append]. f_equal. exact E.
Qed.

Lemma split_from_spaces (w : string) (word : string) :
  Py.all Py.is_space w = true -> Py.split_from word w = Py.flush word.
Proof.
  revert word. induction w as [|c w IH]; intros word; [reflexivity|].
  simpl. intros H. apply andb_prop in H as [Hc Hw]. rewrite Hc.
  rewrite (IH "" Hw). simpl. apply app_nil_r.
Qed.

Lemma split_spaces_before (w x : string) :
  Py.all Py.is_space w = true ->
  Py.split_from "" (w ++ x) = Py.split_from "" x.
Proof.
  induction w as [|c w IH]; [reflexivity|]. simpl.
  intros H. apply andb_prop in H as [Hc Hw]. rewrite Hc. simpl. auto.
Qed.

Lemma split_spaces_after (x w word : string) :
  Py.all Py.is_space w = true ->
  Py.split_from word (x ++ w) = Py.split_from word x.
Proof.
  intros Hw. revert word. induction x as [|c x IH]; intros word.
  - simpl. now apply split_from_spaces.
  - simpl. destruct (Py.is_space c); now rewrite IH.
Qed.

Lemma remove_periods_spaces (w : string) :
  Py.all Py.is_space w = true -> Py.replace "." "" w = w.
Proof.
  rewrite replace_char.
  induction w as [|c w IH]; [reflexivity|]. simpl.
  intros H. apply andb_prop in H as [Hc Hw]. rewrite (IH Hw).
  destruct c as [[] [] [] [] [] [] [] []]; try reflexivity; discriminate Hc.
Qed.

Lemma split_cleaned (s : string) :
  Py.split (cleaned s) = Py.split (Py.replace "." "" s).
Proof.
  unfold cleaned. rewrite split_strip.
  destruct (lstrip_decompose s) as (w1 & H1 & E1).
  destruct (rstrip_decompose (Py.lstrip s)) as (w2 & H2 & E2).
  fold (Py.strip s) in E2.
  rewrite E1 at 2. rewrite E2.
  rewrite !replace_app_char, (remove_periods_spaces w1 H1),
    (remove_periods_spaces w2 H2).
  unfold Py.split. now rewrite split_spaces_before, split_spaces_after.
Qed.

(** X12. [parse_pt_date] reads the tokens that are left when the periods
    are removed: texts with the same tokens give the same result, however
    they are spaced and wherever their periods stand. *)
Theorem parse_pt_date_tokens (now : datetime) (a b : string) :
  Py.split (Py.replace "." "" a) = Py.split (Py.replace "." "" b) ->
  parse_pt_date now a = parse_pt_date now b.
Proof.
  intros H. unfold parse_pt_date. fold (cleaned a) (cleaned b).
  now rewrite !split_cleaned, H.
Qed.

Lemma parse_pt_date_tokens_witness :
  parse_pt_date sample_now "  11.  fev  2026. " = parse_pt_date sample_now "11 fev. 2026".
Proof. apply parse_pt_date_tokens. reflexivity. Defined.

(** ** The extractor, link by link *)

Lemma rstrip_idempotent (s : string) : Py.rstrip (Py.rstrip s) = Py.rstrip s.
Proof.
  induction s as [|c s IH]; [reflexivity|]. cbn [Py.rstrip].
  destruct (Py.rstrip s) as [|d r] eqn:Er.
  - destruct (Py.is_space c) eqn:Ec; [reflexivity|].
    cbn [Py.rstrip]. now rewrite Ec.
  - cbn [Py.rstrip] in *. now rewrite IH.
Qed.

Lemma lstrip_head (s : string) :
  match Py.lstrip s with
  | "" => True
  | String c _ => Py.is_space c = false
  end.
Proof.
  induction s as [|c s IH]; [exact I|]. simpl.
  destruct (Py.is_space c) eqn:Ec; [exact IH|exact Ec].
Qed.

Lemma rstrip_keeps_head (c : ascii) (s : string) :
  Py.is_space c = false -> exists r, Py.rstrip (String c s) = String c r.
Proof.
  intros Hc. cbn [Py.rstrip]. destruct (Py.rstrip s).
  - rewrite Hc. now exists "".
  - eexists. reflexivity.
Qed.

Lemma strip_idempotent (s : string) : Py.strip (Py.strip s) = Py.strip s.
Proof.
  unfold Py.strip. pose proof (lstrip_head s) as H.
  destruct (Py.lstrip s) as [|c t]; [reflexivity|].
  destruct (rstrip_keeps_head c t H) as [r E]. rewrite E.
  rewrite (lstrip_word c r H). rewrite <- E. apply rstrip_idempotent.
Qed.

Lemma strip_stripped_strings (link : anchor) :
  map Py.strip (stripped_strings link) = stripped_strings link.
Proof.
  unfold stripped_strings. induction (text_nodes link) as [|t l IH];
    [reflexivity|].
  cbn [map filter]. destruct (truthy (Py.strip t)); [|exact IH].
  cbn [map]. now rewrite strip_idempotent, IH.
Qed.

(** One pass of the loop over a link that matches. *)
Lemma scrape_loop_cons (now : datetime) (link : anchor) (links : list anchor)
  (episodes : list episode) (id : string) :
  link_id link = Some id ->
  scrape_loop now (link :: links) episodes
  = (ep_date <- link_date now link ;;
     duration_secs <- link_duration link ;;
     scrape_loop now links
       (app episodes
          [mkep (fragment 0 link) ep_date duration_secs
             (BASE_URL ++ link_href link) id None])).
Proof.
  intros H. cbn [scrape_loop]. unfold link_id in H. fold (link_href link).
  fold (link_href link) in H. rewrite H.
  rewrite strip_stripped_strings.
  unfold link_date, link_duration, fragment, get_text_strip, Py.append.
  destruct (stripped_strings link) as [|t [|d [|u l]]]; reflexivity.
Qed.

Lemma scrape_loop_skip (now : datetime) (link : anchor) (links : list anchor)
  (episodes : list episode) :
  link_id link = None ->
  scrape_loop now (link :: links) episodes = scrape_loop now links episodes.
Proof.
  intros H. cbn [scrape_loop]. unfold link_id in H. now rewrite H.
Qed.

Lemma scrape_loop_acc (now : datetime) (links : list anchor)
  (episodes : list episode) :
  scrape_loop now links episodes
  = (r <- scrape_loop now links [] ;; Ok (app episodes r)).
Proof.
  revert episodes. induction links as [|link links IH]; intros episodes.
  - simpl. now rewrite app_nil_r.
  - destruct (link_id link) as [id|] eqn:E.
    + rewrite !(scrape_loop_cons now link links _ id E).
      destruct (link_date now link) as [dt|e]; [|reflexivity].
      destruct (link_duration link) as [n|e]; [|reflexivity].
      cbn [bind]. rewrite (IH (app episodes _)), (IH (app [] _)).
      destruct (scrape_loop now links []) as [r|e]; [|reflexivity].
      cbn [bind app]. now rewrite <- app_assoc.
    + rewrite !scrape_loop_skip by assumption. apply IH.
Qed.

Lemma scrape_loop_app (now : datetime) (l1 l2 : list anchor)
  (episodes : list episode) :
  scrape_loop now (l1 ++ l2) episodes
  = (r <- scrape_loop now l1 episodes ;; scrape_loop now l2 r).
Proof.
  revert episodes. induction l1 as [|link l1 IH]; intros episodes;
    [reflexivity|].
  cbn [app]. destruct (link_id link) as [id|] eqn:E.
  - rewrite !(scrape_loop_cons now link _ _ id E).
    destruct (link_date now link) as [dt|e]; [|reflexivity].
    destruct (link_duration link) as [n|e]; [|reflexivity].
    cbn [bind]. apply IH.
  - rewrite !scrape_loop_skip by assumption. apply IH.
Qed.

(** X13. The extractor works link by link: the records of a page read in
    two parts are the records of the first part followed by those of the
    second, and an exception of the first part comes first. *)
Theorem scrape_episodes_from_soup_app (now : datetime)
  (before after : list anchor) :
  scrape_episodes_from_soup now (before ++ after)
  = (first <- scrape_episodes_from_soup now before ;;
     second <- scrape_episodes_from_soup now after ;;
     Ok (app first second)).
Proof.
  unfold scrape_episodes_from_soup, find_all.
  rewrite filter_app, scrape_loop_app.
  destruct (scrape_loop now (filter _ before) []) as [r|e]; [|reflexivity].
  cbn [bind]. apply scrape_loop_acc.
Qed.


Lemma find_all_matching (anchors : list anchor) :
  Forall (fun link => link_id link <> None) (find_all anchors).
Proof.
  unfold find_all. rewrite Forall_forall. intros link H.
  apply filter_In in H as [_ H]. unfold link_id.
  destruct (href link) as [h|]; [|discriminate].
  destruct (Re.search ep_pattern h); [discriminate|discriminate].
Qed.

Lemma scrape_loop_records (now : datetime) (links : list anchor)
  (episodes : list episode) :
  Forall (fun link => link_id link <> None) links ->
  scrape_loop now links [] = Ok episodes ->
  Forall2 (record_of now) links episodes.
Proof.
  intros M. revert episodes. induction M as [|link links Hm M IH];
    intros episodes.
  - simpl. intros [= <-]. constructor.
  - destruct (link_id link) as [id|] eqn:E; [|congruence].
    rewrite (scrape_loop_cons now link links _ id E).
    destruct (link_date now link) as [dt|e] eqn:Ed; [|discriminate].
    destruct (link_duration link) as [n|e] eqn:En; [|discriminate].
    cbn [bind]. rewrite scrape_loop_acc.
    destruct (scrape_loop now links []) as [r|e]; [|discriminate].
    cbn [bind app]. intros [= <-]. constructor; [|now apply IH].
    unfold record_of.
    cbn [title date duration url episode_id audio_url]. repeat split; auto.
Qed.

(** X14. A page gives one record per link that matches, in the order of the
    links; each record holds the first three non-blank text fragments of
    its link as title, date and duration, the site's address before the
    link's path, the digits of the path, and no audio stream. *)
Theorem scrape_records_of_links (now : datetime) (anchors : list anchor)
  (episodes : list episode) :
  scrape_episodes_from_soup now anchors = Ok episodes ->
  Forall2 (record_of now) (find_all anchors) episodes.
Proof.
  apply scrape_loop_records, find_all_matching.
Qed.

Lemma scrape_records_of_links_witness :
  Forall2 (record_of sample_now) (find_all sample_links) sample_records.
Proof. apply scrape_records_of_links. reflexivity. Defined.




(** ** More on the feed *)





(** X17. The clock shows in one line only: two renderings of the same
    records differ at most in the line at index 10, the [lastBuildDate],
    and are the same text when the two readings have the same text. *)
Theorem generate_rss_clock (now later : datetime) (episodes : list episode) :
  (forall i, i <> 10%nat ->
             nth_error (rss_lines now episodes) i
             = nth_error (rss_lines later episodes) i)
  /\ nth_error (rss_lines now episodes) 10
     = Some ("    <lastBuildDate>" ++ format_rfc822 now ++ "</lastBuildDate>")
  /\ (format_rfc822 now = format_rfc822 later ->
      generate_rss now episodes = generate_rss later episodes).
Proof.
  rewrite !rss_lines_blocks. split; [|split].
  - intros i Hi. unfold channel_lines.
    do 10 (destruct i as [|i]; [reflexivity|]).
    destruct i as [|i]; [congruence|]. reflexivity.
  - reflexivity.
  - intros H. unfold generate_rss. rewrite !rss_lines_blocks.
    unfold channel_lines. now rewrite H.
Qed.

Lemma generate_rss_clock_witness :
  generate_rss (mkdt 2026 11 4 9 30 15 0) [] = generate_rss (mkdt 2026 11 4 9 30 15 999) [].
Proof.
  apply (generate_rss_clock (mkdt 2026 11 4 9 30 15 0)
           (mkdt 2026 11 4 9 30 15 999) []).
  reflexivity.
Defined.










(** ** Runs *)

Lemma fst_bind {A B : Type} (m : io A) (k : A -> io B) :
  fst (m' <~ m ;; k m')
  = match fst m with
    | Returned a => fst (k a)
    | Failed f => Failed f
    end.
Proof.
  destruct m as [[a|f] out]; [|reflexivity]. simpl. now destruct (k a).
Qed.

Lemma files_bind {A B : Type} (m : io A) (k : A -> io B) :
  files_written (snd (m' <~ m ;; k m'))
  = app (files_written (snd m))
      match fst m with
      | Returned a => files_written (snd (k a))
      | Failed _ => []
      end.
Proof.
  unfold files_written.
  destruct m as [[a|f] out]; simpl; [|now rewrite app_nil_r].
  destruct (k a). simpl. apply flat_map_app.
Qed.

Lemma fst_try {A : Type} (body : io A) (handler : failure -> io A) :
  fst (try_except body handler)
  = match fst body with
    | Returned a => Returned a
    | Failed f => fst (handler f)
    end.
Proof.
  destruct body as [[a|f] out]; [reflexivity|]. simpl. now destruct (handler f).
Qed.

Lemma files_try {A : Type} (body : io A) (handler : failure -> io A) :
  files_written (snd (try_except body handler))
  = app (files_written (snd body))
      match fst body with
      | Returned _ => []
      | Failed f => files_written (snd (handler f))
      end.
Proof.
  unfold files_written.
  destruct body as [[a|f] out]; simpl; [now rewrite app_nil_r|].
  destruct (handler f). simpl. apply flat_map_app.
Qed.

Lemma extract_audio_url_installed (w : world) (episode_url : string) :
  installed w "yt_dlp" = true ->
  fst (extract_audio_url w episode_url)
  = Returned (reported_audio w episode_url).
Proof.
  intros H. unfold extract_audio_url, import_module, reported_audio.
  rewrite H.
  destruct (extract_info w episode_url) as [text|[[u|]|]]; try reflexivity.
  destruct (truthy u); reflexivity.
Qed.

Lemma extract_audio_url_missing (w : world) (episode_url : string) :
  installed w "yt_dlp" = false ->
  extract_audio_url w episode_url = (Failed (ImportError "yt_dlp"), []).
Proof.
  intros H. unfold extract_audio_url, import_module. now rewrite H.
Qed.

Lemma extract_audio_url_prints (w : world) (episode_url : string) :
  files_written (snd (extract_audio_url w episode_url)) = [].
Proof.
  unfold extract_audio_url, import_module.
  destruct (installed w "yt_dlp"); [|reflexivity].
  destruct (extract_info w episode_url) as [text|[[u|]|]]; try reflexivity.
  destruct (truthy u); reflexivity.
Qed.

Lemma reported_audio_nonempty (w : world) (episode_url : string) :
  reported_audio w episode_url <> Some "".
Proof.
  unfold reported_audio.
  destruct (extract_info w episode_url) as [text|[[u|]|]]; try discriminate.
  destruct (truthy u) eqn:E; [|discriminate].
  intros [= ->]. discriminate.
Qed.

(** X20. [extract_audio_url] keeps the extractor's failures to itself: with
    [yt_dlp] installed it always returns, it returns a stream only when
    the extractor reported that stream, never an empty text, and an
    exception of the extractor gives no stream and one printed line. *)
Theorem extract_audio_url_absorbs (w : world) (episode_url : string) :
  installed w "yt_dlp" = true ->
  exists audio,
    fst (extract_audio_url w episode_url) = Returned audio
    /\ audio <> Some ""
    /\ (forall u, audio = Some u ->
                  extract_info w episode_url = YdlInfo (Some (Some u)))
    /\ (forall text,
           extract_info w episode_url = YdlRaised text ->
           extract_audio_url w episode_url
           = (Returned None,
              [Print ("  yt-dlp failed for " ++ episode_url ++ ": " ++ text)])).
Proof.
  intros H. exists (reported_audio w episode_url).
  split; [now apply extract_audio_url_installed|].
  split; [apply reported_audio_nonempty|]. split.
  - unfold reported_audio. intros u.
    destruct (extract_info w episode_url) as [text|[[v|]|]]; try discriminate.
    destruct (truthy v); [|discriminate]. now intros [= ->].
  - intros text E. unfold extract_audio_url, import_module.
    now rewrite H, E.
Qed.

Lemma extract_audio_url_absorbs_witness :
  exists audio,
    fst (extract_audio_url sample_world
           "https://www.rtp.pt/play/p8339/e907966/panfletos")
    = Returned audio
    /\ audio <> Some "".
Proof.
  destruct (extract_audio_url_absorbs sample_world
              "https://www.rtp.pt/play/p8339/e907966/panfletos" eq_refl)
    as (audio & H1 & H2 & _).
  exists audio. split; [exact H1 | exact H2].
Defined.

Lemma resolve_loop_installed (w : world) (total i : nat)
  (episodes : list episode) :
  installed w "yt_dlp" = true ->
  fst (resolve_loop w total i episodes)
  = Returned
      (map (fun ep => set_audio_url ep (reported_audio w (url ep))) episodes).
Proof.
  intros H. revert i. induction episodes as [|ep l IH]; intros i;
    [reflexivity|].
  cbn [resolve_loop map]. rewrite !fst_bind. cbn [print fst].
  rewrite (extract_audio_url_installed w (url ep) H).
  rewrite !fst_bind. cbn [print fst]. rewrite IH. reflexivity.
Qed.

Lemma resolve_loop_prints (w : world) (total i : nat)
  (episodes : list episode) :
  files_written (snd (resolve_loop w total i episodes)) = [].
Proof.
  revert i. induction episodes as [|ep l IH]; intros i; [reflexivity|].
  cbn [resolve_loop]. rewrite files_bind. cbn [print fst snd].
  rewrite files_bind, extract_audio_url_prints.
  destruct (fst (extract_audio_url w (url ep))); [|reflexivity].
  rewrite files_bind. cbn [print fst snd].
  rewrite files_bind, IH.
  destruct (fst (resolve_loop w total (S i) l)); reflexivity.
Qed.

Lemma resolve_loop_missing (w : world) (total i : nat) (ep : episode)
  (episodes : list episode) :
  installed w "yt_dlp" = false ->
  fst (resolve_loop w total i (ep :: episodes))
  = Failed (ImportError "yt_dlp").
Proof.
  intros H. cbn [resolve_loop]. rewrite !fst_bind. cbn [print fst].
  now rewrite (extract_audio_url_missing w (url ep) H).
Qed.

(** The value of a live fetch, step by step. *)
Lemma fetch_episodes_online_value (w : world) (now : datetime) :
  fst (fetch_episodes_online w now)
  = if negb (installed w "requests") then Failed (ImportError "requests")
    else match requests_get w PROGRAM_URL with
         | inl err => Failed (External err)
         | inr text =>
             if negb (installed w "bs4") then Failed (ImportError "bs4")
             else match scrape_episodes_from_html (html_parser w) now text with
                  | Raise e => Failed (Raised e)
                  | Ok episodes =>
                      fst (resolve_loop w (List.length episodes) 0 episodes)
                  end
         end.
Proof.
  unfold fetch_episodes_online, scrape_page, import_module.
  destruct (installed w "requests"); [|reflexivity].
  cbn [ret raise io_bind print app fst snd negb].
  destruct (requests_get w PROGRAM_URL) as [err|text]; [reflexivity|].
  cbn [ret raise io_bind print app fst snd negb].
  destruct (installed w "bs4"); [|reflexivity].
  cbn [ret raise io_bind print app fst snd negb].
  destruct (scrape_episodes_from_html (html_parser w) now text) as [eps|e];
    [|reflexivity].
  cbn [ret raise io_bind print app fst snd negb lift].
  now destruct (resolve_loop w (List.length eps) 0 eps).
Qed.

Lemma fetch_episodes_online_prints (w : world) (now : datetime) :
  files_written (snd (fetch_episodes_online w now)) = [].
Proof.
  unfold fetch_episodes_online, scrape_page, import_module.
  destruct (installed w "requests"); [|reflexivity].
  cbn [ret raise io_bind print app fst snd negb].
  destruct (requests_get w PROGRAM_URL) as [err|text]; [reflexivity|].
  cbn [ret raise io_bind print app fst snd negb].
  destruct (installed w "bs4"); [|reflexivity].
  cbn [ret raise io_bind print app fst snd negb].
  destruct (scrape_episodes_from_html (html_parser w) now text) as [eps|e];
    [|reflexivity].
  cbn [ret raise io_bind print app fst snd negb lift].
  pose proof (resolve_loop_prints w (List.length eps) 0 eps) as P.
  destruct (resolve_loop w (List.length eps) 0 eps) as [r out].
  exact P.
Qed.

(** X21. The value of a live fetch, in every surrounding: the scraped
    records in their order, each with the stream the extractor reports
    for its page or with none.  It fails when [requests] or [bs4] is
    missing, when the page cannot be fetched, when the extractor of
    episodes raises, and when there is a record to resolve and [yt_dlp] is
    missing; no failure of the stream extractor makes it fail. *)
Theorem fetch_episodes_online_returns (w : world) (now : datetime) :
  fst (fetch_episodes_online w now)
  = if negb (installed w "requests") then Failed (ImportError "requests")
    else match requests_get w PROGRAM_URL with
         | inl err => Failed (External err)
         | inr text =>
             if negb (installed w "bs4") then Failed (ImportError "bs4")
             else match scrape_episodes_from_html (html_parser w) now text with
                  | Raise e => Failed (Raised e)
                  | Ok [] => Returned []
                  | Ok episodes =>
                      if installed w "yt_dlp"
                      then Returned
                             (map (fun ep =>
                                     set_audio_url ep
                                       (reported_audio w (url ep)))
                                episodes)
                      else Failed (ImportError "yt_dlp")
                  end
         end.
Proof.
  rewrite fetch_episodes_online_value.
  destruct (negb (installed w "requests")); [reflexivity|].
  destruct (requests_get w PROGRAM_URL) as [err|text]; [reflexivity|].
  destruct (negb (installed w "bs4")); [reflexivity|].
  destruct (scrape_episodes_from_html (html_parser w) now text)
    as [[|ep eps]|e]; try reflexivity.
  destruct (installed w "yt_dlp") eqn:Y.
  - now apply resolve_loop_installed.
  - now apply resolve_loop_missing.
Qed.

Lemma main_content (w : world) (now : datetime) (args : arguments) :
  exists out,
    files_written out = []
    /\ main w now args
       = io_bind (Returned (feed_content w now args), out)
           (fun xml_content =>
              write_file w (output args) xml_content ;;;
              print ("RSS feed saved to: " ++ output args) ;;;
              print ("Feed URL for your reader: file://" ++ output args)).
Proof.
  unfold main, feed_content.
  destruct (offline args).
  - eexists. split; [|reflexivity]. reflexivity.
  - pose proof (fetch_episodes_online_prints w now) as P.
    destruct (fetch_episodes_online w now) as [[[|ep eps]|f] out];
      cbn [fst snd] in *.
    + eexists. split; [|reflexivity]. cbn.
      unfold files_written in *. rewrite flat_map_app, P. reflexivity.
    + eexists. split; [|reflexivity]. cbn.
      unfold files_written in *. rewrite flat_map_app, P. reflexivity.
    + eexists. split; [|reflexivity]. cbn.
      unfold files_written in *. rewrite flat_map_app, P. reflexivity.
Qed.

Lemma main_run (w : world) (now : datetime) (args : arguments) :
  match open_error w (output args) with
  | None =>
      fst (main w now args) = Returned tt
      /\ files_written (snd (main w now args))
         = [(output args, feed_content w now args)]
  | Some err =>
      fst (main w now args) = Failed (External err)
      /\ files_written (snd (main w now args)) = []
  end.
Proof.
  destruct (main_content w now args) as (out & P & ->).
  unfold write_file.
  destruct (open_error w (output args)) as [err|]; cbn.
  - split; [reflexivity|]. unfold files_written in *.
    now rewrite app_nil_r.
  - split; [reflexivity|]. unfold files_written in *.
    rewrite flat_map_app, P. reflexivity.
Qed.



(** X23. [main] falls back on the hardcoded list when it is told to work
    offline, when the live fetch fails for any reason, and when the fetch
    finds no episode; the feed it writes then is well-formed. *)
Theorem main_falls_back (w : world) (now : datetime) (args : arguments) :
  open_error w (output args) = None ->
  offline args = true
  \/ (exists f, fst (fetch_episodes_online w now) = Failed f)
  \/ fst (fetch_episodes_online w now) = Returned [] ->
  files_written (snd (main w now args))
  = [(output args, generate_feed_from_hardcoded_data now)]
  /\ Xml.well_formed (generate_feed_from_hardcoded_data now) = true.
Proof.
  intros E H. pose proof (main_run w now args) as R. rewrite E in R.
  destruct R as [_ R]. rewrite R. split.
  - f_equal. f_equal. unfold feed_content.
    destruct H as [H|[[f H]|H]]; rewrite H; [reflexivity|..].
    + now destruct (offline args).
    + now destruct (offline args).
  - now destruct (fallback_document_well_formed now).
Qed.

Lemma main_falls_back_witness :
  files_written (snd (main undated_world sample_now live_args))
  = [(output live_args, generate_feed_from_hardcoded_data sample_now)]
  /\ Xml.well_formed (generate_feed_from_hardcoded_data sample_now) = true.
Proof.
  apply (main_falls_back undated_world sample_now live_args);
    [reflexivity|].
  right. left. exists (Raised ValueError). vm_compute. reflexivity.
Defined.

(** X24. Without [yt_dlp], which the program's list of requirements does not
    name, [main] writes the fallback feed whatever the page holds: the
    import is outside the [try] of [extract_audio_url], so the first
    record to resolve ends the fetch. *)
Theorem main_without_yt_dlp (w : world) (now : datetime) (args : arguments) :
  installed w "yt_dlp" = false ->
  open_error w (output args) = None ->
  files_written (snd (main w now args))
  = [(output args, generate_feed_from_hardcoded_data now)].
Proof.
  intros Y E. pose proof (main_run w now args) as R. rewrite E in R.
  destruct R as [_ R]. rewrite R. f_equal. f_equal. unfold feed_content.
  destruct (offline args); [reflexivity|].
  rewrite fetch_episodes_online_value.
  destruct (negb (installed w "requests")); [reflexivity|].
  destruct (requests_get w PROGRAM_URL) as [err|text]; [reflexivity|].
  destruct (negb (installed w "bs4")); [reflexivity|].
  destruct (scrape_episodes_from_html (html_parser w) now text)
    as [[|ep eps]|e]; try reflexivity.
  now rewrite resolve_loop_missing.
Qed.

Lemma main_without_yt_dlp_witness :
  files_written (snd (main bare_world sample_now live_args))
  = [(output live_args, generate_feed_from_hardcoded_data sample_now)].
Proof.
  apply (main_without_yt_dlp bare_world sample_now live_args); reflexivity.
Defined.










